(** * Calculation domain model: numbers, primitives, entities and schemas

    A shallow embedding of the calculator backend:
    - [app/operations/__init__.py]  (two-operand primitives),
    - [app/models/calculation.py]   (the polymorphic entity and its factory),
    - [app/schemas/calculation.py]  (the request validation schemas),
    followed by the properties established about them. *)

From Stdlib Require Import ZArith List String Ascii Bool Lia Permutation DecimalString.
From Stdlib Require Import Floats.
Import ListNotations.
Local Open Scope string_scope.
Local Open Scope Z_scope.

(** ** Exceptions and outcomes *)

(** The exception classes the modelled code raises, or that the arithmetic
    operators it uses may raise. *)
Inductive exn : Type :=
| ValueError (msg : string)
| TypeError (msg : string)
| IndexError (msg : string)
| ZeroDivisionError (msg : string)
| OverflowError (msg : string)
| NotImplementedError.

(** What a call produces: a returned value or a raised exception. *)
Inductive outcome (A : Type) : Type :=
| Return (a : A)
| Raise (e : exn).
Arguments Return {A} a.
Arguments Raise {A} e.

Definition obind {A B : Type} (o : outcome A) (k : A -> outcome B) : outcome B :=
  match o with
  | Return a => k a
  | Raise e => Raise e
  end.

(** ** Python numbers

    [Number = Union[int, float]]: unbounded integers and binary64 floats, with
    the arithmetic of the operators [+], [-], [*], [/] and [== 0]. *)
Module PyNum.

Inductive number : Type :=
| PInt (z : Z)
| PFloat (f : float).

(** An integer read as the exact value [m * 2^0]. *)
Definition Z2SF (z : Z) : spec_float :=
  match z with
  | Z0 => S754_zero false
  | Zpos p => S754_finite false p 0
  | Zneg p => S754_finite true p 0
  end.

(** [float(z)]: rounded to nearest-even; an integer beyond the binary64
    range raises [OverflowError]. *)
Definition int_to_float (z : Z) : outcome float :=
  let f := SF2Prim (binary_normalize prec emax z 0 false) in
  if PrimFloat.is_infinity f
  then Raise (OverflowError "int too large to convert to float")
  else Return f.

(** [a / b] on two integers: the correctly rounded quotient. *)
Definition int_truediv (a b : Z) : outcome float :=
  if b =? 0 then Raise (ZeroDivisionError "division by zero")
  else
    let q := SF2Prim (SFdiv prec emax (Z2SF a) (Z2SF b)) in
    if PrimFloat.is_infinity q
    then Raise (OverflowError "integer division result too large for a float")
    else Return q.

(** [a / b] on two floats. *)
Definition float_truediv (a b : float) : outcome float :=
  if PrimFloat.eqb b 0%float then Raise (ZeroDivisionError "float division by zero")
  else Return (a / b)%float.

(** A binary operator that is exact on integers and IEEE on floats; a mixed
    pair first converts its integer operand. *)
Definition arith (fz : Z -> Z -> Z) (ff : float -> float -> float)
           (a b : number) : outcome number :=
  match a, b with
  | PInt x, PInt y => Return (PInt (fz x y))
  | PInt x, PFloat g => obind (int_to_float x) (fun f => Return (PFloat (ff f g)))
  | PFloat f, PInt y => obind (int_to_float y) (fun g => Return (PFloat (ff f g)))
  | PFloat f, PFloat g => Return (PFloat (ff f g))
  end.

Definition py_add : number -> number -> outcome number := arith Z.add PrimFloat.add.
Definition py_sub : number -> number -> outcome number := arith Z.sub PrimFloat.sub.
Definition py_mul : number -> number -> outcome number := arith Z.mul PrimFloat.mul.

Definition py_truediv (a b : number) : outcome number :=
  match a, b with
  | PInt x, PInt y => obind (int_truediv x y) (fun q => Return (PFloat q))
  | PInt x, PFloat g =>
      obind (int_to_float x) (fun f => obind (float_truediv f g) (fun q => Return (PFloat q)))
  | PFloat f, PInt y =>
      obind (int_to_float y) (fun g => obind (float_truediv f g) (fun q => Return (PFloat q)))
  | PFloat f, PFloat g => obind (float_truediv f g) (fun q => Return (PFloat q))
  end.

(** [x == 0]. On floats both signed zeros compare equal to 0; NaN does not. *)
Definition eq_zero (x : number) : bool :=
  match x with
  | PInt z => z =? 0
  | PFloat f => PrimFloat.eqb f 0%float
  end.

Definition is_int (x : number) : bool :=
  match x with PInt _ => true | PFloat _ => false end.

Definition is_float (x : number) : bool :=
  match x with PInt _ => false | PFloat _ => true end.

End PyNum.
Export PyNum.

(** ** [app/operations/__init__.py] *)
Module Operations.

Definition add (a b : number) : outcome number := py_add a b.

Definition subtract (a b : number) : outcome number := py_sub a b.

Definition multiply (a b : number) : outcome number := py_mul a b.

Definition divide (a b : number) : outcome number :=
  if eq_zero b then Raise (ValueError "Cannot divide by zero.")
  else py_truediv a b.

End Operations.

(** ** Strings: [str.lower], dictionary lookup, substring test

    A [str] is modelled as a sequence of 8-bit characters; [lower] maps the
    ASCII capitals to their small letters and leaves every other character
    alone (no character outside ASCII lowercases to a letter of the four
    type tags). *)
Module PyStr.

Definition lower_ascii (c : ascii) : ascii :=
  let n := nat_of_ascii c in
  if ((65 <=? n) && (n <=? 90))%nat then ascii_of_nat (n + 32) else c.

Fixpoint lower (s : string) : string :=
  match s with
  | EmptyString => EmptyString
  | String c s' => String (lower_ascii c) (lower s')
  end.

(** [d.get(key)] on a dictionary literal. *)
Fixpoint dict_get {V : Type} (d : list (string * V)) (key : string) : option V :=
  match d with
  | [] => None
  | (k, v) :: d' => if String.eqb k key then Some v else dict_get d' key
  end.

(** [sub in s]. *)
Fixpoint contains (sub s : string) : bool :=
  String.prefix sub s ||
  match s with
  | EmptyString => false
  | String _ s' => contains sub s'
  end.

(** [sep.join(parts)]. *)
Fixpoint join (sep : string) (parts : list string) : string :=
  match parts with
  | [] => EmptyString
  | [p] => p
  | p :: rest => p ++ sep ++ join sep rest
  end.

End PyStr.
Export PyStr.

(** ** [app/models/calculation.py] *)
Module Models.

Definition UUID : Type := N.
Definition datetime : Type := Z.

(** What the [inputs] attribute may hold: the JSON column is untyped, so a
    caller can bind a list of numbers, a bare number, or nothing. *)
Inductive pyval : Type :=
| VNone
| VNum (n : number)
| VList (l : list number).

(** The mapped classes; [Calculation] is the base whose [get_result] is the
    inherited abstract one. *)
Inductive klass : Type :=
| Calculation
| Addition
| Subtraction
| Multiplication
| Division.

(** [__mapper_args__["polymorphic_identity"]]. *)
Definition polymorphic_identity (c : klass) : string :=
  match c with
  | Calculation => "calculation"
  | Addition => "addition"
  | Subtraction => "subtraction"
  | Multiplication => "multiplication"
  | Division => "division"
  end.

(** An instance: its class and the mapped columns (unset columns are [None]). *)
Record instance : Type := mkInstance {
  cls : klass;
  id : option UUID;
  user_id : option UUID;
  type : string;
  inputs : pyval;
  result : option number;
  created_at : option datetime;
  updated_at : option datetime
}.

(** *** Methods as state transformers over [self]

    A method may read and write the attributes of [self] and may raise; the
    attributes written before a raise stay written. *)
Definition method (A : Type) : Type := instance -> outcome A * instance.

Definition ret {A : Type} (a : A) : method A := fun self => (Return a, self).

Definition raise {A : Type} (e : exn) : method A := fun self => (Raise e, self).

Definition bind {A B : Type} (m : method A) (k : A -> method B) : method B :=
  fun self =>
    match m self with
    | (Return a, self') => k a self'
    | (Raise e, self') => (Raise e, self')
    end.

Definition lift {A : Type} (o : outcome A) : method A := fun self => (o, self).

(** [self.<column>] *)
Definition getattr {A : Type} (column : instance -> A) : method A :=
  fun self => (Return (column self), self).

(** [self.user_id = v] and [self.inputs = v] *)
Definition set_user_id (v : option UUID) : method unit :=
  fun self =>
    (Return tt, mkInstance (cls self) (id self) v (type self) (inputs self)
                           (result self) (created_at self) (updated_at self)).

Definition set_inputs (v : pyval) : method unit :=
  fun self =>
    (Return tt, mkInstance (cls self) (id self) (user_id self) (type self) v
                           (result self) (created_at self) (updated_at self)).

Declare Scope method_scope.
Delimit Scope method_scope with method.
Notation "x <- m ;; k" := (bind m (fun x => k))
  (at level 61, m at next level, right associativity) : method_scope.
Notation "m ;; k" := (bind m (fun _ => k))
  (at level 61, right associativity) : method_scope.
Local Open Scope method_scope.

(** *** Built-ins applied to an attribute value *)
Definition isinstance_list (v : pyval) : bool :=
  match v with VList _ => true | _ => false end.

Definition py_len (v : pyval) : outcome nat :=
  match v with
  | VList l => Return (List.length l)
  | _ => Raise (TypeError "object has no len()")
  end.

Definition py_getitem (v : pyval) (i : nat) : outcome number :=
  match v with
  | VList l =>
      match nth_error l i with
      | Some x => Return x
      | None => Raise (IndexError "list index out of range")
      end
  | _ => Raise (TypeError "object is not subscriptable")
  end.

(** [v[i:]] *)
Definition py_slice_from (v : pyval) (i : nat) : outcome (list number) :=
  match v with
  | VList l => Return (skipn i l)
  | _ => Raise (TypeError "object is not subscriptable")
  end.

Definition py_iter (v : pyval) : outcome (list number) :=
  match v with
  | VList l => Return l
  | _ => Raise (TypeError "object is not iterable")
  end.

(** [sum(v)]: adds the items to the start value, the integer 0, from left to
    right, one [+] per item, as the language reference describes it. *)
Fixpoint sum_from (start : number) (items : list number) : outcome number :=
  match items with
  | [] => Return start
  | x :: rest => obind (py_add start x) (fun s => sum_from s rest)
  end.

Definition py_sum (v : pyval) : outcome number :=
  obind (py_iter v) (sum_from (PInt 0)).

(** [for value in items: acc = body(acc, value)] *)
Fixpoint for_each {A : Type} (items : list number) (body : A -> number -> method A)
         (acc : A) : method A :=
  match items with
  | [] => ret acc
  | value :: rest => acc' <- body acc value ;; for_each rest body acc'
  end.

(** *** Construction *)

(** A new object of class [c] before any keyword is bound: the mapper sets the
    discriminator to the class identity; the other columns are unset (their
    defaults are applied by the storage layer on insert). *)
Definition blank (c : klass) : instance :=
  mkInstance c None None (polymorphic_identity c) VNone None None None.

(** [calculation_class(user_id=user_id, inputs=inputs)]: the declarative
    constructor binds each keyword to its attribute and checks nothing. *)
Definition construct (c : klass) (uid : UUID) (v : pyval) : instance :=
  snd ((set_user_id (Some uid) ;; set_inputs v) (blank c)).

Definition calculation_classes : list (string * klass) :=
  [ ("addition", Addition);
    ("subtraction", Subtraction);
    ("multiplication", Multiplication);
    ("division", Division) ].

(** [AbstractCalculation.create] *)
Definition create (calculation_type : string) (uid : UUID) (v : pyval)
  : outcome instance :=
  match dict_get calculation_classes (lower calculation_type) with
  | None => Raise (ValueError ("Unsupported calculation type: " ++ calculation_type))
  | Some calculation_class => Return (construct calculation_class uid v)
  end.

(** *** [get_result] *)

Definition AbstractCalculation_get_result : method number :=
  raise NotImplementedError.

Definition Addition_get_result : method number :=
  v <- getattr inputs ;;
  if negb (isinstance_list v)
  then raise (ValueError "Inputs must be a list of numbers.")
  else
    v <- getattr inputs ;;
    n <- lift (py_len v) ;;
    if (n <? 2)%nat
    then raise (ValueError "Inputs must be a list with at least two numbers.")
    else
      v <- getattr inputs ;;
      lift (py_sum v).

Definition Subtraction_get_result : method number :=
  v <- getattr inputs ;;
  if negb (isinstance_list v)
  then raise (ValueError "Inputs must be a list of numbers.")
  else
    v <- getattr inputs ;;
    n <- lift (py_len v) ;;
    if (n <? 2)%nat
    then raise (ValueError "Inputs must be a list with at least two numbers.")
    else
      v <- getattr inputs ;;
      first <- lift (py_getitem v 0) ;;
      v <- getattr inputs ;;
      rest <- lift (py_slice_from v 1) ;;
      for_each rest (fun result value => lift (py_sub result value)) first.

Definition Multiplication_get_result : method number :=
  v <- getattr inputs ;;
  if negb (isinstance_list v)
  then raise (ValueError "Inputs must be a list of numbers.")
  else
    v <- getattr inputs ;;
    n <- lift (py_len v) ;;
    if (n <? 2)%nat
    then raise (ValueError "Inputs must be a list with at least two numbers.")
    else
      v <- getattr inputs ;;
      items <- lift (py_iter v) ;;
      for_each items (fun result value => lift (py_mul result value)) (PInt 1).

Definition Division_get_result : method number :=
  v <- getattr inputs ;;
  if negb (isinstance_list v)
  then raise (ValueError "Inputs must be a list of numbers.")
  else
    v <- getattr inputs ;;
    n <- lift (py_len v) ;;
    if (n <? 2)%nat
    then raise (ValueError "Inputs must be a list with at least two numbers.")
    else
      v <- getattr inputs ;;
      first <- lift (py_getitem v 0) ;;
      v <- getattr inputs ;;
      rest <- lift (py_slice_from v 1) ;;
      for_each rest
        (fun result value =>
           if eq_zero value
           then raise (ValueError "Cannot divide by zero.")
           else lift (py_truediv result value))
        first.

(** Dynamic dispatch of [self.get_result()] on the class of [self]. *)
Definition get_result : method number :=
  fun self =>
    match cls self with
    | Calculation => AbstractCalculation_get_result self
    | Addition => Addition_get_result self
    | Subtraction => Subtraction_get_result self
    | Multiplication => Multiplication_get_result self
    | Division => Division_get_result self
    end.

(** *** [__repr__] *)

(** The decimal digits of an integer, with a leading minus sign. *)
Definition decimal (z : Z) : string := NilZero.string_of_int (Z.to_int z).

(** How many decimal digits an integer has, the sign not counted. *)
Definition decimal_digits (z : Z) : nat := String.length (decimal (Z.abs z)).

(** The interpreter's limit on the digits of an integer converted to text
    ([sys.get_int_max_str_digits()], 4300 unless reconfigured), and the
    message of the error raised beyond it. *)
Definition int_max_str_digits : nat := 4300.

Definition digit_limit_message : string :=
  "Exceeds the limit (4300 digits) for integer string conversion; use sys.set_int_max_str_digits() to increase the limit".

(** [repr] of an integer: its decimal text, refused beyond the digit limit. *)
Definition repr_int (z : Z) : outcome string :=
  if (int_max_str_digits <? decimal_digits z)%nat
  then Raise (ValueError digit_limit_message)
  else Return (decimal z).

Section Repr.
(** [float.__repr__], the shortest digit string that reads back as the same
    float, is supplied by the runtime; it never raises. *)
Variable repr_float : float -> string.

Definition repr_number (x : number) : outcome string :=
  match x with
  | PInt z => repr_int z
  | PFloat f => Return (repr_float f)
  end.

(** [repr] of each element in turn; the first one that raises ends it. *)
Fixpoint repr_items (l : list number) : outcome (list string) :=
  match l with
  | [] => Return []
  | x :: rest =>
      obind (repr_number x) (fun s =>
      obind (repr_items rest) (fun ss => Return (s :: ss)))
  end.

(** The text an f-string field [{v}] inserts for an attribute value. *)
Definition format_pyval (v : pyval) : outcome string :=
  match v with
  | VNone => Return "None"
  | VNum n => repr_number n
  | VList l => obind (repr_items l) (fun parts => Return ("[" ++ join ", " parts ++ "]"))
  end.

(** [AbstractCalculation.__repr__] *)
Definition repr : method string :=
  t <- getattr type ;;
  v <- getattr inputs ;;
  text <- lift (format_pyval v) ;;
  ret ("<Calculation(type=" ++ t ++ ", inputs=" ++ text ++ ")>").
End Repr.

(** The names under which the specification knows the raised errors. *)
Definition InvalidInputType : exn := ValueError "Inputs must be a list of numbers.".
Definition InsufficientOperands : exn :=
  ValueError "Inputs must be a list with at least two numbers.".
Definition DivisionByZero : exn := ValueError "Cannot divide by zero.".
Definition UnsupportedType (tag : string) : exn :=
  ValueError ("Unsupported calculation type: " ++ tag).

End Models.

(** ** [app/schemas/calculation.py]

    A schema is validated field by field, in declaration order: a field's
    [before] validator runs on the raw value, then the field's own type and
    length constraint; every failing field is reported. When all fields pass,
    the [after] model validator runs on the built object. A raw list is given
    with its elements already read as the floats of [List[float]]. *)
Module Schemas.

Inductive CalculationType : Type :=
| ADDITION
| SUBTRACTION
| MULTIPLICATION
| DIVISION.

Definition value (e : CalculationType) : string :=
  match e with
  | ADDITION => "addition"
  | SUBTRACTION => "subtraction"
  | MULTIPLICATION => "multiplication"
  | DIVISION => "division"
  end.

Definition members : list CalculationType :=
  [ADDITION; SUBTRACTION; MULTIPLICATION; DIVISION].

Definition CalculationType_eqb (a b : CalculationType) : bool :=
  String.eqb (value a) (value b).

(** [CalculationType(s)]: the member whose value is [s]. *)
Definition of_value (s : string) : option CalculationType :=
  find (fun e => String.eqb (value e) s) members.

(** [s in allowed] and [sorted(allowed)] for a set of strings. *)
Definition mem (s : string) (allowed : list string) : bool :=
  existsb (String.eqb s) allowed.

Fixpoint insert_sorted (s : string) (l : list string) : list string :=
  match l with
  | [] => [s]
  | x :: l' => if String.leb s x then s :: l else x :: insert_sorted s l'
  end.

Definition sorted (l : list string) : list string :=
  fold_right insert_sorted [] l.

(** A raw field value as it arrives. For [inputs]: a list, a tuple (not a
    [list] for [isinstance], yet read as one by a [List[float]] field), or a
    value that is no sequence of numbers at all. *)
Inductive raw_type : Type :=
| TypeStr (s : string)
| TypeNotStr.

Inductive raw_inputs : Type :=
| InputsList (l : list float)
| InputsTuple (l : list float)
| InputsNotList.

(** One entry of the validation report. *)
Inductive error_detail : Type :=
| value_error (e : exn)
| too_short (min_length actual : nat)
| list_type
| enum_error (s : string).

(** [x == 0] on a float. *)
Definition float_eq_zero (x : float) : bool := PrimFloat.eqb x 0%float.

(** [Field(..., min_items=2)] on a list. *)
Definition min_items (n : nat) (l : list float) : list error_detail :=
  if (List.length l <? n)%nat then [too_short n (List.length l)] else [].

Module CalculationBase.

Record t : Type := mk { type : CalculationType; inputs : list float }.

Definition validate_type (v : raw_type) : outcome string :=
  let allowed := map value members in
  match v with
  | TypeStr s =>
      if negb (mem (lower s) allowed)
      then Raise (ValueError ("Type must be one of: " ++ join ", " (sorted allowed)))
      else Return (lower s)
  | TypeNotStr =>
      Raise (ValueError ("Type must be one of: " ++ join ", " (sorted allowed)))
  end.

Definition check_inputs_is_list (v : raw_inputs) : outcome (list float) :=
  match v with
  | InputsList l => Return l
  | InputsTuple _ | InputsNotList => Raise (ValueError "Input should be a valid list")
  end.

Definition validate_inputs (self : t) : outcome t :=
  if (List.length (inputs self) <? 2)%nat
  then Raise (ValueError "At least two numbers are required for calculation")
  else
    if CalculationType_eqb (type self) DIVISION
    then
      if existsb float_eq_zero (skipn 1 (inputs self))
      then Raise (ValueError "Cannot divide by zero")
      else Return self
    else Return self.

(** The field [type]: [validate_type], then the enum lookup. *)
Definition field_type (v : raw_type) : list error_detail + CalculationType :=
  match validate_type v with
  | Raise e => inl [value_error e]
  | Return s =>
      match of_value s with
      | Some e => inr e
      | None => inl [enum_error s]
      end
  end.

(** The field [inputs]: [check_inputs_is_list], then [min_items=2]. *)
Definition field_inputs (v : raw_inputs) : list error_detail + list float :=
  match check_inputs_is_list v with
  | Raise e => inl [value_error e]
  | Return l =>
      match min_items 2 l with
      | [] => inr l
      | errs => inl errs
      end
  end.

(** [CalculationBase(type=..., inputs=...)] *)
Definition model_validate (vt : raw_type) (vi : raw_inputs) : list error_detail + t :=
  match field_type vt, field_inputs vi with
  | inr ty, inr l =>
      match validate_inputs (mk ty l) with
      | Return self => inr self
      | Raise e => inl [value_error e]
      end
  | inl e1, inl e2 => inl (e1 ++ e2)%list
  | inl e1, inr _ => inl e1
  | inr _, inl e2 => inl e2
  end.

End CalculationBase.

Module CalculationUpdate.

Record t : Type := mk { inputs : option (list float) }.

Definition validate_inputs (self : t) : outcome t :=
  match inputs self with
  | Some l =>
      if (List.length l <? 2)%nat
      then Raise (ValueError "At least two numbers are required for calculation")
      else Return self
  | None => Return self
  end.

(** The field [inputs]: optional; no validator runs before the field's own
    reading, so a tuple is read as the list of its elements; either is held
    to [min_items=2]. *)
Definition field_inputs (v : option raw_inputs)
  : list error_detail + option (list float) :=
  match v with
  | None => inr None
  | Some (InputsList l) | Some (InputsTuple l) =>
      match min_items 2 l with
      | [] => inr (Some l)
      | errs => inl errs
      end
  | Some InputsNotList => inl [list_type]
  end.

(** [CalculationUpdate(inputs=...)], or [CalculationUpdate()] for [None]. *)
Definition model_validate (vi : option raw_inputs) : list error_detail + t :=
  match field_inputs vi with
  | inr i =>
      match validate_inputs (mk i) with
      | Return self => inr self
      | Raise e => inl [value_error e]
      end
  | inl errs => inl errs
  end.

End CalculationUpdate.

(** An entry of the report that says the list has fewer than two elements. *)
Definition insufficient_operands (d : error_detail) : bool :=
  match d with
  | too_short 2 _ => true
  | value_error (ValueError msg) =>
      String.eqb msg "At least two numbers are required for calculation"
  | _ => false
  end.

Definition DivisionByZero : exn := ValueError "Cannot divide by zero".

End Schemas.

Import Models.

(** ** The reductions the specification speaks of *)

(** A left-to-right accumulation that stops at the first raise. *)
Fixpoint fold_outcome {A : Type} (f : A -> number -> outcome A) (acc : A)
         (items : list number) : outcome A :=
  match items with
  | [] => Return acc
  | v :: rest => obind (f acc v) (fun a => fold_outcome f a rest)
  end.

(** The specification's left fold [((x0 . x1) . x2) . ...], read off the way it
    is written: the outermost operation applies to the last operand, and its
    left argument is the same nesting of the operands before it. [nest] takes
    the operands last-first. *)
Fixpoint nest (op : number -> number -> outcome number) (reversed : list number)
  : outcome number :=
  match reversed with
  | [] => Raise (TypeError "reduce() of empty iterable with no initial value")
  | last :: before =>
      match before with
      | [] => Return last
      | _ :: _ => obind (nest op before) (fun left => op left last)
      end
  end.

Definition left_fold (op : number -> number -> outcome number) (xs : list number)
  : outcome number :=
  nest op (rev xs).

(** The value [get_result] hands back, apart from the instance it leaves. *)
Definition result_of (self : instance) : outcome number := fst (get_result self).

(** Some element at index 1 or later compares equal to zero. *)
Definition zero_divisor (l : list number) : bool := existsb eq_zero (skipn 1 l).

(** The errors of the arithmetic operators themselves. *)
Definition arithmetic_error (e : exn) : Prop :=
  match e with
  | OverflowError _ | ZeroDivisionError _ => True
  | _ => False
  end.

(** The one message [validate_type] raises. *)
Definition type_error_message : string :=
  "Type must be one of: addition, division, multiplication, subtraction".

(** The fixed set of type tags. *)
Definition known_tags : list string :=
  ["addition"; "subtraction"; "multiplication"; "division"].

(** ** Sample values *)

Definition uid0 : UUID := 1%N.

(** 1e308, the binary64 value nearest to it. *)
Definition f1e308 : float := 0x1.1ccf385ebc8ap+1023%float.

(** The text of an attribute value: decimal integers, floats as the runtime
    renders them, a list as its elements between square brackets separated by
    a comma and a space. *)
Definition text_of_number (repr_float : float -> string) (x : number) : string :=
  match x with
  | PInt z => decimal z
  | PFloat f => repr_float f
  end.

Definition text_of_pyval (repr_float : float -> string) (v : pyval) : string :=
  match v with
  | VNone => "None"
  | VNum n => text_of_number repr_float n
  | VList l => "[" ++ join ", " (map (text_of_number repr_float) l) ++ "]"
  end.

(** Every integer held is within the digit limit of the text conversion. *)
Definition number_within_limit (x : number) : bool :=
  match x with
  | PInt z => negb (int_max_str_digits <? decimal_digits z)%nat
  | PFloat _ => true
  end.

Definition within_digit_limit (v : pyval) : bool :=
  match v with
  | VNone => true
  | VNum n => number_within_limit n
  | VList l => forallb number_within_limit l
  end.

(** The object of the representation test: type "multiplication", inputs
    [7, 8, 9], nothing else set. *)
Definition dummy : instance :=
  mkInstance Calculation None None "multiplication"
             (VList [PInt 7; PInt 8; PInt 9]) None None None.

(** A float renderer for objects that hold no float. *)
Definition no_floats : float -> string := fun _ => EmptyString.

(** * Properties *)

(** Runs the attribute reads and shape checks at the head of a method body,
    given what [inputs self] holds. *)
Ltac run_checks Hin :=
  unfold Addition_get_result, Subtraction_get_result, Multiplication_get_result,
    Division_get_result, AbstractCalculation_get_result, bind, getattr, lift, raise;
  repeat (progress (cbn -[for_each fold_outcome sum_from]; rewrite ?Hin)).


(** ** Loops and frames *)

Lemma for_each_pure {A : Type} (f : A -> number -> outcome A)
      (body : A -> number -> method A) :
  (forall a v s, body a v s = (f a v, s)) ->
  forall items acc self,
    for_each items body acc self = (fold_outcome f acc items, self).
Proof.
  intros Hbody items; induction items as [|v rest IH]; intros acc self.
  - reflexivity.
  - cbn [for_each fold_outcome]. unfold bind. rewrite Hbody.
    destruct (f acc v) as [a|e]; cbn [obind].
    + apply IH.
    + reflexivity.
Qed.

Lemma fold_outcome_app {A : Type} (f : A -> number -> outcome A) xs ys acc :
  fold_outcome f acc (xs ++ ys)%list
  = obind (fold_outcome f acc xs) (fun a => fold_outcome f a ys).
Proof.
  revert acc; induction xs as [|x xs IH]; intros acc; cbn [app fold_outcome].
  - reflexivity.
  - destruct (f acc x) as [a|e]; cbn [obind]; [apply IH | reflexivity].
Qed.

Lemma obind_return {A : Type} (o : outcome A) : obind o Return = o.
Proof. destruct o; reflexivity. Qed.

Lemma nest_outermost op last before :
  before <> [] ->
  nest op (last :: before) = obind (nest op before) (fun left => op left last).
Proof.
  destruct before; [congruence | reflexivity].
Qed.

(** The nesting written in the specification is the accumulation loop. *)
Lemma left_fold_cons op x xs :
  left_fold op (x :: xs) = fold_outcome op x xs.
Proof.
  unfold left_fold. induction xs as [|y ys IH] using rev_ind.
  - reflexivity.
  - rewrite app_comm_cons, rev_app_distr. cbn [rev app].
    change (rev ys ++ [x])%list with (rev (x :: ys)).
    rewrite nest_outermost.
    + rewrite IH, fold_outcome_app. cbn [fold_outcome].
      destruct (fold_outcome op x ys) as [a|e]; cbn [obind];
        [now rewrite obind_return | reflexivity].
    + cbn [rev]. destruct (rev ys); discriminate.
Qed.

Lemma sum_from_fold start items :
  sum_from start items = fold_outcome py_add start items.
Proof.
  revert start; induction items as [|x rest IH]; intros start; cbn; [reflexivity|].
  destruct (py_add start x); cbn; [apply IH | reflexivity].
Qed.

(** What [get_result] does on a list of at least two numbers, per class. *)
Lemma get_result_on_list self x0 x1 rest :
  inputs self = VList (x0 :: x1 :: rest) ->
  get_result self =
    (match cls self with
     | Calculation => Raise NotImplementedError
     | Addition => fold_outcome py_add (PInt 0) (x0 :: x1 :: rest)
     | Subtraction => fold_outcome py_sub x0 (x1 :: rest)
     | Multiplication => fold_outcome py_mul (PInt 1) (x0 :: x1 :: rest)
     | Division => fold_outcome Operations.divide x0 (x1 :: rest)
     end, self).
Proof.
  intros Hin. unfold get_result. destruct (cls self); run_checks Hin.
  - reflexivity.
  - unfold py_sum, py_iter. cbn [obind]. now rewrite sum_from_fold.
  - apply (for_each_pure py_sub). reflexivity.
  - apply (for_each_pure py_mul). reflexivity.
  - apply (for_each_pure Operations.divide).
    intros a v s. unfold Operations.divide.
    destruct (eq_zero v); reflexivity.
Qed.

(** On anything else the input-shape checks raise. *)
Lemma get_result_on_short self :
  cls self <> Calculation ->
  get_result self =
    (match inputs self with
     | VList [] | VList [_] => Raise InsufficientOperands
     | VList (x0 :: x1 :: rest) => fst (get_result self)
     | _ => Raise InvalidInputType
     end, self).
Proof.
  intros Hc.
  destruct (inputs self) as [|n|[|x0 [|x1 rest]]] eqn:Hin.
  5: { rewrite (get_result_on_list self x0 x1 rest Hin). reflexivity. }
  all: unfold get_result; destruct (cls self); try congruence;
    run_checks Hin; reflexivity.
Qed.

Lemma get_result_leaves_self self : snd (get_result self) = self.
Proof.
  destruct (cls self) eqn:Hc.
  - unfold get_result. rewrite Hc. reflexivity.
  - rewrite get_result_on_short by congruence. reflexivity.
  - rewrite get_result_on_short by congruence. reflexivity.
  - rewrite get_result_on_short by congruence. reflexivity.
  - rewrite get_result_on_short by congruence. reflexivity.
Qed.

(** ** Floating-point identities used by the reductions *)

Lemma float_add_0_l (f : float) :
  f <> (-0)%float -> (0 + f)%float = f.
Proof.
  intros Hf. apply Prim2SF_inj. rewrite add_spec.
  replace (Prim2SF 0%float) with (S754_zero false) by reflexivity.
  destruct (Prim2SF f) as [[|]|s| |s m e] eqn:E; try reflexivity.
  exfalso. apply Hf. apply Prim2SF_inj. rewrite E. reflexivity.
Qed.

Lemma float_mul_1_l (f : float) : (1 * f)%float = f.
Proof.
  apply Prim2SF_inj. rewrite mul_spec.
  pose proof (Prim2SF_valid f) as V.
  replace (Prim2SF 1%float) with (S754_finite false 4503599627370496 (-52))
    by (vm_compute; reflexivity).
  destruct (Prim2SF f) as [s|s| |s m e]; try reflexivity.
  cbn [valid_binary] in V. unfold bounded, canonical_mantissa in V.
  apply andb_true_iff in V. destruct V as [Hc Hb].
  apply Z.eqb_eq in Hc.
  unfold SF64mul, SFmul. cbn [xorb Pos.mul].
  unfold binary_round_aux, shr_fexp.
  cbn [Zdigits2 digits2_pos]. rewrite !Pos2Z.inj_succ.
  match goal with
  | |- context [fexp prec emax ?a - ?b] =>
      replace a with (Z.pos (digits2_pos m) + e) by lia;
      rewrite Hc; replace (e - b) with 52 by lia
  end.
  cbn [shr shr_record_of_loc iter_pos shr_1 orb shr_m loc_of_shr_record
       round_nearest_even Zdigits2].
  replace (-52 + e + 52) with e by lia.
  rewrite Hc, Z.sub_diag. cbn [shr shr_m]. now rewrite Hb.
Qed.

(** ** Worked examples *)

Example addition_1_2_3 :
  obind (create "addition" uid0 (VList [PInt 1; PInt 2; PInt 3])) result_of
  = Return (PInt 6).
Proof. reflexivity. Qed.

Example multiplication_5_2_3 :
  obind (create "multiplication" uid0 (VList [PInt 5; PInt 2; PInt 3])) result_of
  = Return (PInt 30).
Proof. reflexivity. Qed.

Example division_60_3_4 :
  obind (create "division" uid0 (VList [PInt 60; PInt 3; PInt 4])) result_of
  = Return (PFloat 5).
Proof. vm_compute. reflexivity. Qed.

Example abstract_get_result_raises :
  result_of dummy = Raise NotImplementedError.
Proof. reflexivity. Qed.

(** ** Subtraction *)

Lemma fold_sub_ints zs : forall z0,
  fold_outcome py_sub (PInt z0) (map PInt zs) = Return (PInt (fold_left Z.sub zs z0)).
Proof.
  induction zs as [|z zs IH]; intros z0; cbn; [reflexivity | apply IH].
Qed.

(** C5. For every list of at least two numbers, the subtraction variant's
    [get_result] is the left fold ((inputs[0] - inputs[1]) - inputs[2]) - ...
    taken in the given order (on integers: the exact difference); in
    particular create("subtraction", uid, [15, 4, 2]).get_result() is 9. *)
Theorem subtraction_is_left_fold :
  (forall self l,
      cls self = Subtraction -> inputs self = VList l -> (2 <= List.length l)%nat ->
      result_of self = left_fold py_sub l) /\
  (forall self z0 z1 zs,
      cls self = Subtraction -> inputs self = VList (map PInt (z0 :: z1 :: zs)) ->
      result_of self = Return (PInt (fold_left Z.sub (z1 :: zs) z0))) /\
  (forall uid,
      obind (create "subtraction" uid (VList [PInt 15; PInt 4; PInt 2])) result_of
      = Return (PInt 9)).
Proof.
  split; [|split].
  - intros self [|x0 [|x1 rest]] Hc Hin Hlen; cbn in Hlen; try lia.
    unfold result_of. rewrite (get_result_on_list self x0 x1 rest Hin), Hc.
    cbn [fst]. symmetry. apply left_fold_cons.
  - intros self z0 z1 zs Hc Hin. unfold result_of.
    rewrite (get_result_on_list self (PInt z0) (PInt z1) (map PInt zs) Hin), Hc.
    cbn [fst]. apply (fold_sub_ints (z1 :: zs)).
  - intros uid. reflexivity.
Qed.

Lemma subtraction_is_left_fold_witness :
  result_of (construct Subtraction uid0 (VList [PInt 15; PInt 4; PInt 2]))
  = left_fold py_sub [PInt 15; PInt 4; PInt 2].
Proof.
  apply (proj1 subtraction_is_left_fold); [reflexivity | reflexivity | simpl; lia].
Defined.

(** ** Frame *)

(** C10. [get_result] reads the instance and never writes it: whatever the
    class and the state, and whether the call returns or raises, the instance
    left behind is the one it was given (id, type, inputs, result, created_at
    and updated_at included). In particular the result column, unset after
    [create], is still unset after [get_result]. *)
Theorem get_result_does_not_write :
  (forall self, snd (get_result self) = self) /\
  (forall tag uid v c,
      create tag uid v = Return c ->
      result c = None /\ result (snd (get_result c)) = None).
Proof.
  split.
  - apply get_result_leaves_self.
  - intros tag uid v c Hc. rewrite get_result_leaves_self.
    unfold create in Hc.
    destruct (dict_get calculation_classes (lower tag)); inversion Hc; subst.
    split; reflexivity.
Qed.

Lemma get_result_does_not_write_witness :
  result (construct Division uid0 (VList [PInt 25; PInt 0; PInt 2])) = None /\
  result (snd (get_result (construct Division uid0 (VList [PInt 25; PInt 0; PInt 2])))) = None.
Proof.
  apply (proj2 get_result_does_not_write "division" uid0
                (VList [PInt 25; PInt 0; PInt 2])).
  reflexivity.
Defined.

(** ** The factory *)

Lemma lower_ascii_idempotent c : lower_ascii (lower_ascii c) = lower_ascii c.
Proof.
  destruct c as [[|] [|] [|] [|] [|] [|] [|] [|]]; reflexivity.
Qed.

Lemma lower_idempotent s : lower (lower s) = lower s.
Proof.
  induction s as [|c s IH]; cbn; [reflexivity|].
  now rewrite lower_ascii_idempotent, IH.
Qed.

Lemma known_tag_has_class key :
  In key known_tags ->
  exists c, dict_get calculation_classes key = Some c /\ polymorphic_identity c = key.
Proof.
  cbn. intros [H|[H|[H|[H|[]]]]]; subst key.
  - exists Addition; split; reflexivity.
  - exists Subtraction; split; reflexivity.
  - exists Multiplication; split; reflexivity.
  - exists Division; split; reflexivity.
Qed.

Lemma unknown_tag_has_no_class key :
  ~ In key known_tags -> dict_get calculation_classes key = None.
Proof.
  intros Hn. cbn [dict_get calculation_classes].
  repeat match goal with
         | |- context [String.eqb ?k key] =>
             destruct (String.eqb_spec k key) as [E|_];
             [exfalso; apply Hn; rewrite <- E; cbn; tauto|]
         end.
  reflexivity.
Qed.

Lemma prefix_refl s : String.prefix s s = true.
Proof.
  induction s as [|c s IH]; cbn; [reflexivity|].
  destruct (ascii_dec c c); [exact IH | congruence].
Qed.

Lemma contains_refl s : contains s s = true.
Proof.
  destruct s; cbn [contains]; rewrite prefix_refl; reflexivity.
Qed.

Lemma contains_suffix pre s : contains s (pre ++ s) = true.
Proof.
  induction pre as [|c pre IH].
  - apply contains_refl.
  - cbn [append contains]. rewrite IH. apply orb_true_r.
Qed.

(** C4. The factory looks the type tag up in lower case against the fixed set
    of four tags. A tag whose lower-casing is in the set behaves exactly like
    its lower-cased form (and yields an instance of the class registered
    under it); any other tag
    fails with the unsupported-type error, whose message contains the tag as
    it was given. So "ADDITION" is "addition", and "power" is refused with a
    message naming "power". *)
Theorem create_normalizes_tag :
  forall tag uid v,
    (In (lower tag) known_tags ->
       create tag uid v = create (lower tag) uid v /\
       exists k, dict_get calculation_classes (lower tag) = Some k /\
                 create tag uid v = Return (construct k uid v)) /\
    (~ In (lower tag) known_tags ->
       create tag uid v = Raise (ValueError ("Unsupported calculation type: " ++ tag)) /\
       contains tag ("Unsupported calculation type: " ++ tag) = true).
Proof.
  intros tag uid v. split.
  - intros Hin. destruct (known_tag_has_class _ Hin) as [c [Hget Hid]].
    unfold create. rewrite lower_idempotent, Hget. split; [reflexivity|].
    exists c. split; reflexivity.
  - intros Hn. unfold create. rewrite (unknown_tag_has_no_class _ Hn).
    split; [reflexivity | apply contains_suffix].
Qed.

Lemma create_normalizes_tag_witness :
  (create "ADDITION" uid0 (VList [PInt 1; PInt 2])
   = create (lower "ADDITION") uid0 (VList [PInt 1; PInt 2]) /\
   exists k, dict_get calculation_classes (lower "ADDITION") = Some k /\
             create "ADDITION" uid0 (VList [PInt 1; PInt 2])
             = Return (construct k uid0 (VList [PInt 1; PInt 2]))) /\
  (create "power" uid0 (VList [PInt 5; PInt 2])
   = Raise (ValueError ("Unsupported calculation type: " ++ "power")) /\
   contains "power" ("Unsupported calculation type: " ++ "power") = true).
Proof.
  split.
  - apply (proj1 (create_normalizes_tag "ADDITION" uid0 (VList [PInt 1; PInt 2]))).
    cbn. tauto.
  - apply (proj2 (create_normalizes_tag "power" uid0 (VList [PInt 5; PInt 2]))).
    cbn. intros [H|[H|[H|[H|[]]]]]; discriminate H.
Defined.

(** C3 as stated fails: the factory returns an instance for a one-element list
    and for a bare number alike. *)
Lemma create_accepts_malformed_inputs :
  (create "addition" uid0 (VList [PInt 42])
   = Return (construct Addition uid0 (VList [PInt 42])) /\
   create "addition" uid0 (VList [PInt 42]) <> Raise InsufficientOperands) /\
  (create "addition" uid0 (VNum (PInt 42))
   = Return (construct Addition uid0 (VNum (PInt 42))) /\
   create "addition" uid0 (VNum (PInt 42)) <> Raise InvalidInputType).
Proof.
  repeat split; try reflexivity; discriminate.
Qed.

(** C3, amended. With a recognized tag the factory never raises: it returns an
    instance holding the inputs as given. The input-shape errors come from
    [get_result] on that instance: InvalidInputType when the inputs are not a
    list, InsufficientOperands when the list has fewer than two elements. So
    create("addition", uid, [42]) and create("addition", uid, 42) both return,
    and [get_result] raises on what they return. *)
Theorem create_defers_shape_checks :
  (forall tag uid v,
      In (lower tag) known_tags ->
      exists c,
        create tag uid v = Return c /\ inputs c = v /\
        (isinstance_list v = false -> result_of c = Raise InvalidInputType) /\
        (forall l, v = VList l -> (List.length l < 2)%nat ->
                   result_of c = Raise InsufficientOperands)) /\
  (forall uid,
      obind (create "addition" uid (VList [PInt 42])) result_of
      = Raise InsufficientOperands) /\
  (forall uid,
      obind (create "addition" uid (VNum (PInt 42))) result_of
      = Raise InvalidInputType).
Proof.
  split; [|split; intros uid; reflexivity].
  intros tag uid v Hin. destruct (known_tag_has_class _ Hin) as [c [Hget Hid]].
  exists (construct c uid v). unfold create. rewrite Hget.
  split; [reflexivity|]. split; [reflexivity|].
  assert (Hc : cls (construct c uid v) <> Calculation).
  { destruct c; cbn; try discriminate. cbn in Hid.
    exfalso. clear Hget. cbn in Hin.
    destruct Hin as [H|[H|[H|[H|[]]]]]; rewrite <- Hid in H; discriminate H. }
  unfold result_of. rewrite (get_result_on_short _ Hc).
  change (inputs (construct c uid v)) with v. split.
  - intros Hl. destruct v; try reflexivity. discriminate Hl.
  - intros l -> Hlen. destruct l as [|x0 [|x1 rest]]; try reflexivity.
    cbn in Hlen. lia.
Qed.

Lemma create_defers_shape_checks_witness :
  exists c,
    create "Addition" uid0 (VList [PInt 42]) = Return c /\
    inputs c = VList [PInt 42] /\
    (isinstance_list (VList [PInt 42]) = false -> result_of c = Raise InvalidInputType) /\
    (forall l, VList [PInt 42] = VList l -> (List.length l < 2)%nat ->
               result_of c = Raise InsufficientOperands).
Proof.
  apply (proj1 create_defers_shape_checks "Addition" uid0 (VList [PInt 42])).
  cbn. tauto.
Defined.

(** ** Division *)

Lemma py_truediv_raises a b e :
  py_truediv a b = Raise e ->
  match e with ZeroDivisionError _ | OverflowError _ => True | _ => False end.
Proof.
  destruct a as [x|f], b as [y|g];
    unfold py_truediv, int_truediv, int_to_float, float_truediv;
    repeat (cbn [obind];
            match goal with
            | |- context [if ?c then _ else _] => destruct c
            end);
    cbn [obind]; intros H; inversion H; exact I.
Qed.

Lemma divide_nonzero a v :
  eq_zero v = false -> Operations.divide a v = py_truediv a v.
Proof. intros H. unfold Operations.divide. now rewrite H. Qed.

Lemma divide_zero a v :
  eq_zero v = true -> Operations.divide a v = Raise DivisionByZero.
Proof. intros H. unfold Operations.divide. now rewrite H. Qed.

Lemma fold_divide_without_zero pre : forall acc,
  existsb eq_zero pre = false ->
  fold_outcome Operations.divide acc pre = fold_outcome py_truediv acc pre.
Proof.
  induction pre as [|v pre IH]; intros acc Hz; [reflexivity|].
  cbn [existsb] in Hz. apply orb_false_iff in Hz. destruct Hz as [Hv Hpre].
  cbn [fold_outcome]. rewrite (divide_nonzero acc v Hv).
  destruct (py_truediv acc v); cbn [obind]; [now apply IH | reflexivity].
Qed.

(** Only a zero divisor makes the loop raise the division-by-zero error. *)
Lemma fold_divide_raise_has_zero rest : forall acc,
  fold_outcome Operations.divide acc rest = Raise DivisionByZero ->
  existsb eq_zero rest = true.
Proof.
  induction rest as [|v rest IH]; intros acc H; cbn in H; [discriminate H|].
  cbn [existsb]. destruct (eq_zero v) eqn:Hv; [reflexivity|].
  rewrite (divide_nonzero acc v Hv) in H.
  destruct (py_truediv acc v) as [a|e] eqn:Hd; cbn [obind] in H.
  - cbn [orb]. now apply (IH a).
  - apply py_truediv_raises in Hd. inversion H; subst e. destruct Hd.
Qed.

(** On floats nothing but the zero check can raise. *)
Lemma fold_divide_floats rest : forall f,
  forallb is_float rest = true ->
  existsb eq_zero rest = true ->
  fold_outcome Operations.divide (PFloat f) rest = Raise DivisionByZero.
Proof.
  induction rest as [|v rest IH]; intros f Hf Hz; cbn in Hz; [discriminate Hz|].
  cbn [forallb] in Hf. apply andb_true_iff in Hf. destruct Hf as [Hv Hrest].
  destruct v as [z|g]; [discriminate Hv|].
  cbn [fold_outcome]. destruct (eq_zero (PFloat g)) eqn:Hg.
  - now rewrite divide_zero.
  - rewrite divide_nonzero by exact Hg. cbn [orb] in Hz.
    unfold py_truediv, float_truediv. cbn [eq_zero] in Hg. rewrite Hg.
    cbn [obind]. now apply IH.
Qed.

(** C1 as stated fails: an integer quotient beyond the float range raises
    OverflowError before the zero divisor behind it is reached. *)
Lemma division_overflow_precedes_zero_check :
  zero_divisor [PInt (10 ^ 400); PInt 1; PInt 0] = true /\
  result_of (construct Division uid0 (VList [PInt (10 ^ 400); PInt 1; PInt 0]))
  = Raise (OverflowError "integer division result too large for a float") /\
  result_of (construct Division uid0 (VList [PInt (10 ^ 400); PInt 1; PInt 0]))
  <> Raise DivisionByZero.
Proof.
  split; [reflexivity|].
  assert (H : result_of (construct Division uid0 (VList [PInt (10 ^ 400); PInt 1; PInt 0]))
              = Raise (OverflowError "integer division result too large for a float"))
    by (vm_compute; reflexivity).
  split; [exact H | rewrite H; discriminate].
Qed.

(** C1, amended. For a division on a list of at least two numbers:
    [get_result] raises the division-by-zero error only if some element at
    index 1 or later equals zero (so a zero numerator never triggers it); when
    every input is a float it raises that error exactly when such an element
    exists; and in general the loop stops at the first zero divisor, raising
    the error without returning the quotient reached so far and without
    looking at later elements, unless one of the divisions before that
    divisor has itself raised (an integer operand or quotient too large for a
    float), in which case that earlier error is the outcome.
    create("division", uid, [25, 0, 2]).get_result() raises it; [0, 5] gives 0.0. *)
Theorem division_by_zero_detection :
  (forall self l,
      cls self = Division -> inputs self = VList l -> (2 <= List.length l)%nat ->
      (result_of self = Raise DivisionByZero -> zero_divisor l = true) /\
      (forallb is_float l = true ->
         (result_of self = Raise DivisionByZero <-> zero_divisor l = true)) /\
      (forall x0 pre z post,
          l = (x0 :: pre ++ z :: post)%list ->
          existsb eq_zero pre = false -> eq_zero z = true ->
          result_of self
          = obind (left_fold py_truediv (x0 :: pre)) (fun _ => Raise DivisionByZero))) /\
  (forall uid,
      obind (create "division" uid (VList [PInt 25; PInt 0; PInt 2])) result_of
      = Raise DivisionByZero) /\
  (forall uid,
      obind (create "division" uid (VList [PInt 0; PInt 5])) result_of
      = Return (PFloat 0)).
Proof.
  split; [|split; intros uid; vm_compute; reflexivity].
  intros self [|x0 [|x1 rest]] Hc Hin Hlen; cbn in Hlen; try lia.
  unfold result_of. rewrite (get_result_on_list self x0 x1 rest Hin), Hc.
  cbn [fst]. unfold zero_divisor. cbn [skipn].
  split; [apply fold_divide_raise_has_zero|]. split.
  - intros Hf. split; [apply fold_divide_raise_has_zero|].
    cbn [forallb] in Hf. apply andb_true_iff in Hf. destruct Hf as [H0 Hf].
    destruct x0 as [z|f]; [discriminate H0|].
    now apply fold_divide_floats.
  - intros y0 pre z post El Hpre Hz. injection El as -> Erest.
    rewrite Erest, fold_outcome_app, left_fold_cons.
    rewrite (fold_divide_without_zero pre y0 Hpre).
    destruct (fold_outcome py_truediv y0 pre) as [a|e]; cbn [obind fold_outcome];
      [now rewrite divide_zero | reflexivity].
Qed.

Lemma division_by_zero_detection_witness :
  (result_of (construct Division uid0 (VList [PFloat 25; PFloat 0; PFloat 2]))
   = Raise DivisionByZero ->
   zero_divisor [PFloat 25; PFloat 0; PFloat 2] = true) /\
  (forallb is_float [PFloat 25; PFloat 0; PFloat 2] = true ->
   (result_of (construct Division uid0 (VList [PFloat 25; PFloat 0; PFloat 2]))
    = Raise DivisionByZero <->
    zero_divisor [PFloat 25; PFloat 0; PFloat 2] = true)) /\
  (forall x0 pre z post,
      [PFloat 25; PFloat 0; PFloat 2] = (x0 :: pre ++ z :: post)%list ->
      existsb eq_zero pre = false -> eq_zero z = true ->
      result_of (construct Division uid0 (VList [PFloat 25; PFloat 0; PFloat 2]))
      = obind (left_fold py_truediv (x0 :: pre)) (fun _ => Raise DivisionByZero)).
Proof.
  apply (proj1 division_by_zero_detection
               (construct Division uid0 (VList [PFloat 25; PFloat 0; PFloat 2]))).
  - reflexivity.
  - reflexivity.
  - simpl. lia.
Defined.

(** ** The reductions against the two-operand primitives *)

Lemma py_mul_1_l x : py_mul (PInt 1) x = Return x.
Proof.
  destruct x as [z|f].
  - unfold py_mul, arith. now rewrite Z.mul_1_l.
  - unfold py_mul, arith.
    change (int_to_float 1) with (Return 1%float). cbn [obind].
    now rewrite float_mul_1_l.
Qed.

Lemma py_add_0_l x : x <> PFloat (-0)%float -> py_add (PInt 0) x = Return x.
Proof.
  intros Hx. destruct x as [z|f].
  - reflexivity.
  - unfold py_add, arith.
    change (int_to_float 0) with (Return 0%float). cbn [obind].
    rewrite float_add_0_l; [reflexivity|]. intros E. apply Hx. now rewrite E.
Qed.

(** C2 as stated fails for addition: [sum] starts from the integer 0, and
    0 + -0.0 is +0.0, whereas add(-0.0, -0.0) is -0.0. *)
Lemma addition_sum_differs_from_add_fold :
  result_of (construct Addition uid0 (VList [PFloat (-0); PFloat (-0)]))
  = Return (PFloat 0) /\
  left_fold Operations.add [PFloat (-0); PFloat (-0)] = Return (PFloat (-0)) /\
  result_of (construct Addition uid0 (VList [PFloat (-0); PFloat (-0)]))
  <> left_fold Operations.add [PFloat (-0); PFloat (-0)].
Proof.
  assert (H1 : result_of (construct Addition uid0 (VList [PFloat (-0); PFloat (-0)]))
               = Return (PFloat 0)) by (vm_compute; reflexivity).
  assert (H2 : left_fold Operations.add [PFloat (-0); PFloat (-0)]
               = Return (PFloat (-0))) by (vm_compute; reflexivity).
  split; [exact H1|]. split; [exact H2|].
  rewrite H1, H2. intros E.
  apply (f_equal (fun o => match o with
                           | Return (PFloat f) => PrimFloat.get_sign f
                           | _ => false
                           end)) in E.
  vm_compute in E. discriminate E.
Qed.

(** C2, amended. On every list of at least two numbers, [get_result] of the
    subtraction, multiplication and division variants is identical to the
    left fold of subtract, multiply and divide over the list, raised errors
    included (the zero-divisor error among them). The addition variant is
    identical to the left fold of add started from the integer 0, and to the
    left fold of add over the list itself whenever the first input is not the
    float negative zero. *)
Theorem get_result_refines_primitives :
  forall self l,
    inputs self = VList l -> (2 <= List.length l)%nat ->
    (cls self = Subtraction -> result_of self = left_fold Operations.subtract l) /\
    (cls self = Multiplication -> result_of self = left_fold Operations.multiply l) /\
    (cls self = Division -> result_of self = left_fold Operations.divide l) /\
    (cls self = Addition ->
       result_of self = left_fold Operations.add (PInt 0 :: l) /\
       (hd (PInt 0) l <> PFloat (-0)%float ->
        result_of self = left_fold Operations.add l)).
Proof.
  intros self [|x0 [|x1 rest]] Hin Hlen; cbn in Hlen; try lia.
  unfold result_of. rewrite (get_result_on_list self x0 x1 rest Hin).
  rewrite !left_fold_cons.
  split; [|split; [|split]]; intros Hc; rewrite Hc; cbn [fst].
  - reflexivity.
  - change Operations.multiply with py_mul.
    cbn [fold_outcome]. rewrite py_mul_1_l. reflexivity.
  - reflexivity.
  - split; [reflexivity|]. cbn [hd]. intros Hx0.
    change Operations.add with py_add.
    change (fold_outcome py_add (PInt 0) (x0 :: x1 :: rest))
      with (obind (py_add (PInt 0) x0) (fun a => fold_outcome py_add a (x1 :: rest))).
    now rewrite (py_add_0_l x0 Hx0).
Qed.

Lemma get_result_refines_primitives_witness :
  result_of (construct Division uid0 (VList [PInt 60; PInt 3; PInt 4]))
  = left_fold Operations.divide [PInt 60; PInt 3; PInt 4] /\
  result_of (construct Addition uid0 (VList [PInt 1; PInt 2; PInt 3]))
  = left_fold Operations.add [PInt 1; PInt 2; PInt 3].
Proof.
  split.
  - apply (proj1 (proj2 (proj2
             (get_result_refines_primitives
                (construct Division uid0 (VList [PInt 60; PInt 3; PInt 4]))
                [PInt 60; PInt 3; PInt 4] eq_refl ltac:(simpl; lia))))).
    reflexivity.
  - apply (proj2 (proj2 (proj2
             (get_result_refines_primitives
                (construct Addition uid0 (VList [PInt 1; PInt 2; PInt 3]))
                [PInt 1; PInt 2; PInt 3] eq_refl ltac:(simpl; lia))))).
    + reflexivity.
    + simpl. discriminate.
Defined.

(** ** Addition under permutation *)

Lemma is_int_inv x : is_int x = true -> exists z, x = PInt z.
Proof. destruct x as [z|f]; [now exists z | discriminate]. Qed.

Lemma forallb_is_int_perm xs ys :
  Permutation xs ys -> forallb is_int xs = true -> forallb is_int ys = true.
Proof.
  intros Hp Hx. apply forallb_forall. intros y Hy.
  rewrite forallb_forall in Hx. apply Hx.
  apply (Permutation_in y (Permutation_sym Hp) Hy).
Qed.

(** The sum of integers does not depend on their order. *)
Lemma sum_ints_perm xs ys :
  Permutation xs ys ->
  forallb is_int xs = true ->
  forall a, fold_outcome py_add (PInt a) xs = fold_outcome py_add (PInt a) ys.
Proof.
  induction 1 as [|x l l' Hp IH|x y l|l l' l'' Hp1 IH1 Hp2 IH2]; intros Hint a.
  - reflexivity.
  - cbn [forallb] in Hint. apply andb_true_iff in Hint. destruct Hint as [Hx Hl].
    destruct (is_int_inv x Hx) as [z ->]. cbn. now apply IH.
  - cbn [forallb] in Hint. apply andb_true_iff in Hint. destruct Hint as [Hy Hl].
    apply andb_true_iff in Hl. destruct Hl as [Hx Hl].
    destruct (is_int_inv x Hx) as [zx ->]. destruct (is_int_inv y Hy) as [zy ->].
    cbn. now replace (a + zy + zx) with (a + zx + zy) by lia.
  - rewrite (IH1 Hint a). apply IH2. exact (forallb_is_int_perm l l' Hp1 Hint).
Qed.

(** C7 as stated fails on floats: an intermediate sum that overflows makes
    the total depend on the order of the operands. *)
Lemma addition_depends_on_float_order :
  Permutation [PFloat f1e308; PFloat f1e308; PFloat (- f1e308)]
              [PFloat f1e308; PFloat (- f1e308); PFloat f1e308] /\
  result_of (construct Addition uid0
               (VList [PFloat f1e308; PFloat f1e308; PFloat (- f1e308)]))
  = Return (PFloat infinity) /\
  result_of (construct Addition uid0
               (VList [PFloat f1e308; PFloat (- f1e308); PFloat f1e308]))
  = Return (PFloat f1e308) /\
  result_of (construct Addition uid0
               (VList [PFloat f1e308; PFloat (- f1e308); PFloat f1e308]))
  <> result_of (construct Addition uid0
                  (VList [PFloat f1e308; PFloat f1e308; PFloat (- f1e308)])).
Proof.
  split; [apply perm_skip, perm_swap|].
  assert (H1 : result_of (construct Addition uid0
                 (VList [PFloat f1e308; PFloat f1e308; PFloat (- f1e308)]))
               = Return (PFloat infinity)) by (vm_compute; reflexivity).
  assert (H2 : result_of (construct Addition uid0
                 (VList [PFloat f1e308; PFloat (- f1e308); PFloat f1e308]))
               = Return (PFloat f1e308)) by (vm_compute; reflexivity).
  split; [exact H1|]. split; [exact H2|].
  rewrite H1, H2. intros E.
  apply (f_equal (fun o => match o with
                           | Return (PFloat f) => PrimFloat.is_infinity f
                           | _ => false
                           end)) in E.
  vm_compute in E. discriminate E.
Qed.

(** C7, amended. For every list of at least two integers and every
    permutation of it, the addition variant's [get_result] on the permuted
    list equals its [get_result] on the list. *)
Theorem addition_permutation_invariant :
  forall self self' xs ys,
    cls self = Addition -> inputs self = VList xs ->
    cls self' = Addition -> inputs self' = VList ys ->
    forallb is_int xs = true -> (2 <= List.length xs)%nat ->
    Permutation xs ys ->
    result_of self' = result_of self.
Proof.
  intros self self' xs ys Hc Hin Hc' Hin' Hint Hlen Hp.
  pose proof (Permutation_length Hp) as Hlen'.
  destruct xs as [|x0 [|x1 xs]]; cbn in Hlen; try lia.
  destruct ys as [|y0 [|y1 ys]]; cbn in Hlen'; try lia.
  unfold result_of.
  rewrite (get_result_on_list self x0 x1 xs Hin), Hc.
  rewrite (get_result_on_list self' y0 y1 ys Hin'), Hc'.
  cbn [fst]. symmetry. now apply sum_ints_perm.
Qed.

Lemma addition_permutation_invariant_witness :
  result_of (construct Addition uid0 (VList [PInt 3; PInt 1; PInt 2]))
  = result_of (construct Addition uid0 (VList [PInt 1; PInt 2; PInt 3])).
Proof.
  apply (addition_permutation_invariant
           (construct Addition uid0 (VList [PInt 1; PInt 2; PInt 3]))
           (construct Addition uid0 (VList [PInt 3; PInt 1; PInt 2]))
           [PInt 1; PInt 2; PInt 3] [PInt 3; PInt 1; PInt 2]);
    try reflexivity.
  - simpl. lia.
  - apply Permutation_sym.
    exact (perm_trans (perm_swap (PInt 1) (PInt 3) [PInt 2])
                      (perm_skip (PInt 1) (perm_swap (PInt 2) (PInt 3) []))).
Defined.

(** ** The representation *)

Lemma repr_items_within_limit repr_float l :
  forallb number_within_limit l = true ->
  repr_items repr_float l = Return (map (text_of_number repr_float) l).
Proof.
  induction l as [|x l IH]; intros H; [reflexivity|].
  cbn [forallb] in H. apply andb_true_iff in H. destruct H as [Hx Hl].
  cbn [repr_items map]. rewrite (IH Hl).
  destruct x as [z|f]; cbn [repr_number text_of_number obind]; [|reflexivity].
  unfold repr_int. cbn [number_within_limit] in Hx.
  apply negb_true_iff in Hx. rewrite Hx. reflexivity.
Qed.

Lemma repr_items_beyond_limit repr_float l :
  forallb number_within_limit l = false ->
  repr_items repr_float l = Raise (ValueError digit_limit_message).
Proof.
  induction l as [|x l IH]; intros H; [discriminate H|].
  cbn [forallb] in H. cbn [repr_items].
  destruct x as [z|f]; cbn [repr_number number_within_limit] in *.
  - unfold repr_int. destruct (int_max_str_digits <? decimal_digits z)%nat;
      cbn [negb andb obind] in *; [reflexivity|].
    now rewrite (IH H).
  - cbn [andb obind] in *. now rewrite (IH H).
Qed.

(** C9 as stated fails: the rendered text is wrapped in angle brackets. *)
Lemma repr_is_not_the_bare_form :
  fst (repr no_floats dummy)
  = Return "<Calculation(type=multiplication, inputs=[7, 8, 9])>" /\
  fst (repr no_floats dummy)
  <> Return "Calculation(type=multiplication, inputs=[7, 8, 9])".
Proof.
  assert (H : fst (repr no_floats dummy)
              = Return "<Calculation(type=multiplication, inputs=[7, 8, 9])>")
    by (vm_compute; reflexivity).
  split; [exact H | rewrite H; discriminate].
Qed.

(** C9, amended. For every instance whose integer inputs each have at most
    4300 decimal digits (the interpreter's limit for turning an integer into
    text), the textual representation is exactly
    <Calculation(type=T, inputs=I)>, angle brackets included, where T is the
    instance's type tag and I the text of its inputs (a list shows as its
    elements between square brackets, separated by a comma and a space). When
    some integer input has more digits than that, rendering raises the
    interpreter's ValueError instead of returning a text. Either way the
    instance is left as it was. *)
Theorem repr_renders_type_and_inputs :
  forall (repr_float : float -> string) (self : instance),
    snd (repr repr_float self) = self /\
    (within_digit_limit (inputs self) = true ->
       fst (repr repr_float self)
       = Return ("<Calculation(type=" ++ type self ++ ", inputs="
                 ++ text_of_pyval repr_float (inputs self) ++ ")>")) /\
    (within_digit_limit (inputs self) = false ->
       fst (repr repr_float self) = Raise (ValueError digit_limit_message)).
Proof.
  intros repr_float self. unfold repr, bind, getattr, lift, ret.
  destruct (inputs self) as [|[z|f]|l];
    cbn [format_pyval repr_number within_digit_limit number_within_limit
         text_of_pyval text_of_number].
  - repeat split; try intros H; first [reflexivity | discriminate H].
  - unfold repr_int. destruct (int_max_str_digits <? decimal_digits z)%nat;
      cbn [negb]; repeat split; try intros H; first [reflexivity | discriminate H].
  - repeat split; try intros H; first [reflexivity | discriminate H].
  - destruct (forallb number_within_limit l) eqn:Hl.
    + rewrite (repr_items_within_limit repr_float l Hl). cbn [obind].
      repeat split; try intros H; first [reflexivity | discriminate H].
    + rewrite (repr_items_beyond_limit repr_float l Hl). cbn [obind].
      repeat split; try intros H; first [reflexivity | discriminate H].
Qed.

Lemma repr_renders_type_and_inputs_witness :
  fst (repr no_floats dummy)
  = Return ("<Calculation(type=" ++ type dummy ++ ", inputs="
            ++ text_of_pyval no_floats (inputs dummy) ++ ")>").
Proof.
  apply (proj1 (proj2 (repr_renders_type_and_inputs no_floats dummy))).
  vm_compute. reflexivity.
Defined.

(** ** The schemas *)

Import Schemas.

Lemma zero_after_first_has_two (l : list float) :
  existsb float_eq_zero (skipn 1 l) = true -> (List.length l <? 2)%nat = false.
Proof.
  destruct l as [|x0 [|x1 rest]]; cbn; try discriminate. reflexivity.
Qed.

(** C6. The schema rejects a division request with a zero at index 1 or later
    with the division-by-zero error: the model validator raises it, and the
    whole validation (type tag in any case) ends in that error instead of a
    validated object, so nothing is handed on for an entity to be built from.
    {type: "division", inputs: [10, 0]} is rejected so. *)
Theorem schema_rejects_zero_divisor :
  (forall self,
      CalculationBase.type self = DIVISION ->
      existsb float_eq_zero (skipn 1 (CalculationBase.inputs self)) = true ->
      CalculationBase.validate_inputs self = Raise Schemas.DivisionByZero) /\
  (forall tag l,
      lower tag = "division" ->
      existsb float_eq_zero (skipn 1 l) = true ->
      CalculationBase.model_validate (TypeStr tag) (InputsList l)
      = inl [value_error Schemas.DivisionByZero]) /\
  CalculationBase.model_validate (TypeStr "division") (InputsList [10%float; 0%float])
  = inl [value_error Schemas.DivisionByZero].
Proof.
  split; [|split; [|reflexivity]].
  - intros self Ht Hz. unfold CalculationBase.validate_inputs.
    rewrite (zero_after_first_has_two _ Hz), Ht, Hz. reflexivity.
  - intros tag l Ht Hz.
    unfold CalculationBase.model_validate, CalculationBase.field_type,
      CalculationBase.validate_type, CalculationBase.field_inputs,
      CalculationBase.check_inputs_is_list, min_items.
    rewrite Ht, (zero_after_first_has_two _ Hz).
    cbn -[skipn existsb Nat.ltb].
    unfold CalculationBase.validate_inputs. cbn [CalculationBase.inputs CalculationBase.type].
    rewrite (zero_after_first_has_two _ Hz), Hz. reflexivity.
Qed.

Lemma schema_rejects_zero_divisor_witness :
  CalculationBase.model_validate (TypeStr "DIVISION")
    (InputsList [100%float; 5%float; (-0)%float])
  = inl [value_error Schemas.DivisionByZero].
Proof.
  apply (proj1 (proj2 schema_rejects_zero_divisor)); reflexivity.
Defined.

(** C8. The update schema takes [inputs] as optional. When a list is given
    with fewer than two elements the validation fails, every reported entry
    saying that two operands are required (the model validator raises that
    error on such a list); a list of two or more elements passes whatever its
    values are, since no zero-divisor check is made: [10, 0] passes. *)
Theorem update_schema_checks_length_only :
  CalculationUpdate.model_validate None = inr (CalculationUpdate.mk None) /\
  (forall l,
      (List.length l < 2)%nat ->
      CalculationUpdate.validate_inputs (CalculationUpdate.mk (Some l))
      = Raise (ValueError "At least two numbers are required for calculation") /\
      exists errs,
        CalculationUpdate.model_validate (Some (InputsList l)) = inl errs /\
        errs <> [] /\ forallb insufficient_operands errs = true) /\
  (forall l,
      (2 <= List.length l)%nat ->
      CalculationUpdate.model_validate (Some (InputsList l))
      = inr (CalculationUpdate.mk (Some l))) /\
  CalculationUpdate.model_validate (Some (InputsList [10%float; 0%float]))
  = inr (CalculationUpdate.mk (Some [10%float; 0%float])).
Proof.
  split; [reflexivity|]. split; [|split; [|reflexivity]].
  - intros l Hlen.
    assert (Hlt : (List.length l <? 2)%nat = true) by now apply Nat.ltb_lt.
    split.
    + unfold CalculationUpdate.validate_inputs. cbn [CalculationUpdate.inputs].
      now rewrite Hlt.
    + exists [too_short 2 (List.length l)].
      unfold CalculationUpdate.model_validate, CalculationUpdate.field_inputs, min_items.
      rewrite Hlt. split; [reflexivity|]. split; [discriminate | reflexivity].
  - intros l Hlen.
    assert (Hge : (List.length l <? 2)%nat = false) by now apply Nat.ltb_ge.
    unfold CalculationUpdate.model_validate, CalculationUpdate.field_inputs, min_items,
      CalculationUpdate.validate_inputs.
    rewrite Hge. cbn [CalculationUpdate.inputs]. now rewrite Hge.
Qed.

Lemma update_schema_checks_length_only_witness :
  CalculationUpdate.model_validate (Some (InputsList [42%float; 0%float; 7%float]))
  = inr (CalculationUpdate.mk (Some [42%float; 0%float; 7%float])).
Proof.
  apply (proj1 (proj2 (proj2 update_schema_checks_length_only))). simpl. lia.
Defined.

(** * Further properties of the primitives, the entity and the schemas *)

(** ** The two-operand primitives *)

Lemma SFadd_comm (x y : spec_float) : SFadd prec emax x y = SFadd prec emax y x.
Proof.
  destruct x as [[|]|[|]| |sx mx ex], y as [[|]|[|]| |sy my ey]; try reflexivity.
  cbn [SFadd]. rewrite (Z.min_comm ey ex). f_equal. apply Z.add_comm.
Qed.

Lemma SFmul_comm (x y : spec_float) : SFmul prec emax x y = SFmul prec emax y x.
Proof.
  destruct x as [[|]|[|]| |sx mx ex], y as [[|]|[|]| |sy my ey];
    try reflexivity; try (destruct sx; reflexivity); try (destruct sy; reflexivity).
  cbn [SFmul]. now rewrite (xorb_comm sy sx), (Pos.mul_comm my mx), (Z.add_comm ey ex).
Qed.

Lemma float_add_comm (f g : float) : (f + g)%float = (g + f)%float.
Proof. apply Prim2SF_inj. rewrite !add_spec. apply SFadd_comm. Qed.

Lemma float_mul_comm (f g : float) : (f * g)%float = (g * f)%float.
Proof. apply Prim2SF_inj. rewrite !mul_spec. apply SFmul_comm. Qed.

Lemma arith_comm fz ff :
  (forall x y, fz x y = fz y x) -> (forall f g, ff f g = ff g f) ->
  forall a b, arith fz ff a b = arith fz ff b a.
Proof.
  intros Hz Hf [x|f] [y|g]; cbn [arith].
  - now rewrite Hz.
  - destruct (int_to_float x); cbn [obind]; [now rewrite Hf | reflexivity].
  - destruct (int_to_float y); cbn [obind]; [now rewrite Hf | reflexivity].
  - now rewrite Hf.
Qed.

Lemma arith_raises fz ff a b e :
  arith fz ff a b = Raise e -> exists msg, e = OverflowError msg.
Proof.
  destruct a as [x|f], b as [y|g]; cbn [arith]; try discriminate.
  - unfold int_to_float. destruct (PrimFloat.is_infinity _); cbn [obind];
      intros H; inversion H. eexists; reflexivity.
  - unfold int_to_float. destruct (PrimFloat.is_infinity _); cbn [obind];
      intros H; inversion H. eexists; reflexivity.
Qed.

(** X1. divide raises its own ValueError, "Cannot divide by zero.", exactly
    when the divisor compares equal to zero, whatever the dividend; with any
    other divisor it is the [/] operator, so on two floats it returns the
    IEEE quotient and raises nothing. *)
Theorem divide_guards_exactly_zero :
  forall a b,
    (Operations.divide a b = Raise (ValueError "Cannot divide by zero.")
     <-> eq_zero b = true) /\
    (forall msg, Operations.divide a b = Raise (ValueError msg) ->
                 msg = "Cannot divide by zero.") /\
    (forall f g, a = PFloat f -> b = PFloat g -> eq_zero b = false ->
                 Operations.divide a b = Return (PFloat (f / g))).
Proof.
  intros a b. split; [|split].
  - split.
    + intros H. destruct (eq_zero b) eqn:Hb; [reflexivity|].
      rewrite (divide_nonzero a b Hb) in H. apply py_truediv_raises in H. destruct H.
    + apply divide_zero.
  - intros msg H. destruct (eq_zero b) eqn:Hb.
    + rewrite (divide_zero a b Hb) in H. now inversion H.
    + rewrite (divide_nonzero a b Hb) in H. apply py_truediv_raises in H. destruct H.
  - intros f g -> -> Hb. rewrite (divide_nonzero _ _ Hb).
    unfold py_truediv, float_truediv. cbn [eq_zero] in Hb. now rewrite Hb.
Qed.

Lemma divide_guards_exactly_zero_witness :
  Operations.divide (PFloat 7) (PFloat 2) = Return (PFloat (7 / 2)).
Proof.
  apply (proj2 (proj2 (divide_guards_exactly_zero (PFloat 7) (PFloat 2))) 7%float 2%float);
    reflexivity.
Defined.

(** X2. add and multiply are symmetric in their operands for all numbers,
    integers, floats and mixed pairs alike: the returned value, or the raised
    error, is the same in either order. *)
Theorem add_multiply_commute :
  forall a b,
    Operations.add a b = Operations.add b a /\
    Operations.multiply a b = Operations.multiply b a.
Proof.
  intros a b. unfold Operations.add, Operations.multiply, py_add, py_mul. split.
  - apply arith_comm; [apply Z.add_comm | apply float_add_comm].
  - apply arith_comm; [apply Z.mul_comm | apply float_mul_comm].
Qed.

(** ** The variants on integers *)

Lemma fold_add_ints zs : forall a,
  fold_outcome py_add (PInt a) (map PInt zs) = Return (PInt (fold_left Z.add zs a)).
Proof.
  induction zs as [|z zs IH]; intros a; cbn; [reflexivity | apply IH].
Qed.

Lemma fold_mul_ints zs : forall a,
  fold_outcome py_mul (PInt a) (map PInt zs) = Return (PInt (fold_left Z.mul zs a)).
Proof.
  induction zs as [|z zs IH]; intros a; cbn -[Z.mul]; [reflexivity | apply IH].
Qed.

Lemma fold_left_add_shift zs : forall a, fold_left Z.add zs a = a + fold_left Z.add zs 0.
Proof.
  induction zs as [|z zs IH]; intros a; cbn [fold_left]; [lia|].
  rewrite (IH (a + z)), (IH (0 + z)). lia.
Qed.

Lemma fold_left_mul_scale zs : forall a, fold_left Z.mul zs a = a * fold_left Z.mul zs 1.
Proof.
  induction zs as [|z zs IH]; intros a; cbn [fold_left]; [lia|].
  rewrite (IH (a * z)), (IH (1 * z)). lia.
Qed.

Lemma fold_left_sub_sum zs : forall a, fold_left Z.sub zs a = a - fold_left Z.add zs 0.
Proof.
  induction zs as [|z zs IH]; intros a; cbn [fold_left]; [lia|].
  rewrite (IH (a - z)), (fold_left_add_shift zs (0 + z)). lia.
Qed.

Lemma sum_perm xs ys :
  Permutation xs ys -> fold_left Z.add xs 0 = fold_left Z.add ys 0.
Proof.
  induction 1 as [|x l l' Hp IH|x y l|l l' l'' Hp1 IH1 Hp2 IH2].
  - reflexivity.
  - cbn [fold_left]. rewrite (fold_left_add_shift l), (fold_left_add_shift l'). lia.
  - cbn [fold_left]. rewrite (fold_left_add_shift l (0 + y + x)),
      (fold_left_add_shift l (0 + x + y)). lia.
  - congruence.
Qed.

Lemma product_perm xs ys :
  Permutation xs ys -> fold_left Z.mul xs 1 = fold_left Z.mul ys 1.
Proof.
  induction 1 as [|x l l' Hp IH|x y l|l l' l'' Hp1 IH1 Hp2 IH2].
  - reflexivity.
  - cbn [fold_left]. rewrite (fold_left_mul_scale l), (fold_left_mul_scale l'), IH.
    reflexivity.
  - cbn [fold_left]. rewrite (fold_left_mul_scale l (1 * y * x)),
      (fold_left_mul_scale l (1 * x * y)). lia.
  - congruence.
Qed.

Lemma addition_multiplication_exact_on_integers_aux self z0 z1 zs :
  inputs self = VList (map PInt (z0 :: z1 :: zs)) ->
  (cls self = Addition ->
     result_of self = Return (PInt (fold_left Z.add (z0 :: z1 :: zs) 0))) /\
  (cls self = Multiplication ->
     result_of self = Return (PInt (fold_left Z.mul (z0 :: z1 :: zs) 1))).
Proof.
  intros Hin. unfold result_of.
  rewrite (get_result_on_list self (PInt z0) (PInt z1) (map PInt zs) Hin).
  split; intros Hc; rewrite Hc; cbn [fst].
  - apply (fold_add_ints (z0 :: z1 :: zs)).
  - apply (fold_mul_ints (z0 :: z1 :: zs)).
Qed.

(** X3. On a list of at least two integers the addition variant returns the
    exact integer sum and the multiplication variant the exact integer
    product; neither raises, and no rounding or overflow occurs however large
    the operands. *)
Theorem addition_multiplication_exact_on_integers :
  forall self z0 z1 zs,
    inputs self = VList (map PInt (z0 :: z1 :: zs)) ->
    (cls self = Addition ->
       result_of self = Return (PInt (fold_left Z.add (z0 :: z1 :: zs) 0))) /\
    (cls self = Multiplication ->
       result_of self = Return (PInt (fold_left Z.mul (z0 :: z1 :: zs) 1))).
Proof.
  intros self z0 z1 zs. apply addition_multiplication_exact_on_integers_aux.
Qed.

Lemma addition_multiplication_exact_on_integers_witness :
  result_of (construct Multiplication uid0 (VList (map PInt [10 ^ 200; 10 ^ 200; -3])))
  = Return (PInt (fold_left Z.mul [10 ^ 200; 10 ^ 200; -3] 1)).
Proof.
  apply (proj2 (addition_multiplication_exact_on_integers
                  (construct Multiplication uid0
                             (VList (map PInt [10 ^ 200; 10 ^ 200; -3])))
                  (10 ^ 200) (10 ^ 200) [-3] eq_refl)).
  reflexivity.
Defined.

(** X4. For every list of at least two integers and every permutation of it,
    the multiplication variant's result on the permuted list equals its
    result on the list. *)
Theorem multiplication_permutation_invariant :
  forall self self' xs ys,
    cls self = Multiplication -> inputs self = VList (map PInt xs) ->
    cls self' = Multiplication -> inputs self' = VList (map PInt ys) ->
    (2 <= List.length xs)%nat -> Permutation xs ys ->
    result_of self' = result_of self.
Proof.
  intros self self' xs ys Hc Hin Hc' Hin' Hlen Hp.
  pose proof (Permutation_length Hp) as Hlen'.
  destruct xs as [|x0 [|x1 xs]]; cbn in Hlen; try lia.
  destruct ys as [|y0 [|y1 ys]]; cbn in Hlen'; try lia.
  rewrite (proj2 (addition_multiplication_exact_on_integers_aux self x0 x1 xs Hin) Hc).
  rewrite (proj2 (addition_multiplication_exact_on_integers_aux self' y0 y1 ys Hin') Hc').
  do 2 f_equal. symmetry. now apply product_perm.
Qed.

Lemma multiplication_permutation_invariant_witness :
  result_of (construct Multiplication uid0 (VList (map PInt [3; 5; 2])))
  = result_of (construct Multiplication uid0 (VList (map PInt [5; 2; 3]))).
Proof.
  apply (multiplication_permutation_invariant
           (construct Multiplication uid0 (VList (map PInt [5; 2; 3])))
           (construct Multiplication uid0 (VList (map PInt [3; 5; 2])))
           [5; 2; 3] [3; 5; 2]);
    try reflexivity.
  - simpl. lia.
  - apply Permutation_sym.
    exact (perm_trans (perm_swap 5 3 [2]) (perm_skip 5 (perm_swap 2 3 []))).
Defined.

(** X5. Exchanging the first two operands never changes the multiplication
    variant's outcome, for integers, floats and mixed lists alike: the same
    value is returned, or the same error raised. *)
Theorem multiplication_first_two_commute :
  forall self self' x0 x1 rest,
    cls self = Multiplication -> inputs self = VList (x0 :: x1 :: rest) ->
    cls self' = Multiplication -> inputs self' = VList (x1 :: x0 :: rest) ->
    result_of self' = result_of self.
Proof.
  intros self self' x0 x1 rest Hc Hin Hc' Hin'. unfold result_of.
  rewrite (get_result_on_list self x0 x1 rest Hin), Hc.
  rewrite (get_result_on_list self' x1 x0 rest Hin'), Hc'.
  cbn [fst fold_outcome]. rewrite !py_mul_1_l. cbn [obind].
  unfold py_mul. now rewrite (arith_comm Z.mul PrimFloat.mul Z.mul_comm float_mul_comm x1 x0).
Qed.

Lemma multiplication_first_two_commute_witness :
  result_of (construct Multiplication uid0 (VList [PInt 3; PFloat f1e308; PFloat 2]))
  = result_of (construct Multiplication uid0 (VList [PFloat f1e308; PInt 3; PFloat 2])).
Proof.
  apply (multiplication_first_two_commute
           (construct Multiplication uid0 (VList [PFloat f1e308; PInt 3; PFloat 2]))
           (construct Multiplication uid0 (VList [PInt 3; PFloat f1e308; PFloat 2]))
           (PFloat f1e308) (PInt 3) [PFloat 2]);
    reflexivity.
Defined.

(** X6. On a list of at least two integers the subtraction variant returns
    the first input minus the sum of all the others; so only which input comes
    first matters, and reordering the inputs after the first leaves the result
    unchanged. *)
Theorem subtraction_is_first_minus_sum :
  forall self z0 z1 zs,
    cls self = Subtraction -> inputs self = VList (map PInt (z0 :: z1 :: zs)) ->
    result_of self = Return (PInt (z0 - fold_left Z.add (z1 :: zs) 0)) /\
    (forall self' ys,
        cls self' = Subtraction -> inputs self' = VList (map PInt (z0 :: ys)) ->
        Permutation (z1 :: zs) ys ->
        result_of self' = result_of self).
Proof.
  intros self z0 z1 zs Hc Hin.
  assert (H : forall s l y ys,
             cls s = Subtraction -> inputs s = VList (map PInt (l :: y :: ys)) ->
             result_of s = Return (PInt (l - fold_left Z.add (y :: ys) 0))).
  { intros s l y ys Hs Hi. unfold result_of.
    rewrite (get_result_on_list s (PInt l) (PInt y) (map PInt ys) Hi), Hs.
    cbn [fst]. change (PInt y :: map PInt ys) with (map PInt (y :: ys)).
    rewrite (fold_sub_ints (y :: ys) l). now rewrite fold_left_sub_sum. }
  split; [now apply H|].
  intros self' ys Hc' Hin' Hp.
  destruct ys as [|y ys]; [apply Permutation_sym, Permutation_nil in Hp; discriminate Hp|].
  rewrite (H self' z0 y ys Hc' Hin'), (H self z0 z1 zs Hc Hin).
  do 3 f_equal. symmetry. now apply sum_perm.
Qed.

Lemma subtraction_is_first_minus_sum_witness :
  result_of (construct Subtraction uid0 (VList (map PInt [15; 4; 2])))
  = Return (PInt (15 - fold_left Z.add [4; 2] 0)) /\
  (forall self' ys,
      cls self' = Subtraction -> inputs self' = VList (map PInt (15 :: ys)) ->
      Permutation [4; 2] ys ->
      result_of self'
      = result_of (construct Subtraction uid0 (VList (map PInt [15; 4; 2])))).
Proof.
  apply (subtraction_is_first_minus_sum
           (construct Subtraction uid0 (VList (map PInt [15; 4; 2]))) 15 4 [2]);
    reflexivity.
Defined.

(** ** The variants on floats *)

Lemma fold_arith_floats fz ff l : forall a,
  fold_outcome (arith fz ff) (PFloat a) (map PFloat l)
  = Return (PFloat (fold_left ff l a)).
Proof.
  induction l as [|x l IH]; intros a; cbn; [reflexivity | apply IH].
Qed.

Lemma existsb_eq_zero_floats l :
  existsb eq_zero (map PFloat l) = existsb Schemas.float_eq_zero l.
Proof.
  induction l as [|x l IH]; cbn; [reflexivity | now rewrite IH].
Qed.

Lemma fold_divide_floats_nonzero l : forall a,
  existsb Schemas.float_eq_zero l = false ->
  fold_outcome Operations.divide (PFloat a) (map PFloat l)
  = Return (PFloat (fold_left PrimFloat.div l a)).
Proof.
  induction l as [|x l IH]; intros a Hz; [reflexivity|].
  cbn [existsb] in Hz. apply orb_false_iff in Hz. destruct Hz as [Hx Hl].
  cbn [map fold_outcome fold_left].
  unfold Operations.divide at 1. cbn [eq_zero].
  unfold Schemas.float_eq_zero in Hx. rewrite Hx.
  unfold py_truediv, float_truediv. rewrite Hx. cbn [obind]. now apply IH.
Qed.

(** What each variant does on a list of at least two floats. *)
Lemma get_result_floats self x0 x1 rest :
  inputs self = VList (map PFloat (x0 :: x1 :: rest)) ->
  (cls self = Addition ->
     result_of self = Return (PFloat (fold_left PrimFloat.add (x0 :: x1 :: rest) 0%float))) /\
  (cls self = Subtraction ->
     result_of self = Return (PFloat (fold_left PrimFloat.sub (x1 :: rest) x0))) /\
  (cls self = Multiplication ->
     result_of self = Return (PFloat (fold_left PrimFloat.mul (x1 :: rest) x0))) /\
  (cls self = Division ->
     result_of self =
       if existsb Schemas.float_eq_zero (x1 :: rest)
       then Raise Models.DivisionByZero
       else Return (PFloat (fold_left PrimFloat.div (x1 :: rest) x0))).
Proof.
  intros Hin. unfold result_of.
  rewrite (get_result_on_list self (PFloat x0) (PFloat x1) (map PFloat rest) Hin).
  split; [|split; [|split]]; intros Hc; rewrite Hc; cbn [fst].
  - change (fold_outcome py_add (PInt 0) (PFloat x0 :: PFloat x1 :: map PFloat rest))
      with (fold_outcome py_add (PFloat (0 + x0)) (map PFloat (x1 :: rest))).
    unfold py_add. now rewrite fold_arith_floats.
  - change (PFloat x1 :: map PFloat rest) with (map PFloat (x1 :: rest)).
    unfold py_sub. now rewrite fold_arith_floats.
  - change (fold_outcome py_mul (PInt 1) (PFloat x0 :: PFloat x1 :: map PFloat rest))
      with (fold_outcome py_mul (PFloat (1 * x0)) (map PFloat (x1 :: rest))).
    unfold py_mul. now rewrite fold_arith_floats, float_mul_1_l.
  - change (PFloat x1 :: map PFloat rest) with (map PFloat (x1 :: rest)).
    destruct (existsb Schemas.float_eq_zero (x1 :: rest)) eqn:Hz.
    + apply fold_divide_floats.
      * clear. induction (x1 :: rest) as [|y l IH]; [reflexivity | exact IH].
      * now rewrite existsb_eq_zero_floats.
    + now apply fold_divide_floats_nonzero.
Qed.

(** X7. On a list of at least two floats no variant raises anything but the
    division-by-zero error: addition returns the floats summed from 0.0 left
    to right, subtraction and multiplication the left-to-right difference and
    product starting at the first input, and division the left-to-right
    quotient unless a divisor is zero, in which case it raises. Overflow and
    invalid operations show in the returned float (inf, nan), never as an
    exception. *)
Theorem get_result_on_floats :
  forall self x0 x1 rest,
    inputs self = VList (map PFloat (x0 :: x1 :: rest)) ->
    (cls self = Addition ->
       result_of self
       = Return (PFloat (fold_left PrimFloat.add (x0 :: x1 :: rest) 0%float))) /\
    (cls self = Subtraction ->
       result_of self = Return (PFloat (fold_left PrimFloat.sub (x1 :: rest) x0))) /\
    (cls self = Multiplication ->
       result_of self = Return (PFloat (fold_left PrimFloat.mul (x1 :: rest) x0))) /\
    (cls self = Division ->
       result_of self =
         if existsb Schemas.float_eq_zero (x1 :: rest)
         then Raise Models.DivisionByZero
         else Return (PFloat (fold_left PrimFloat.div (x1 :: rest) x0))).
Proof.
  intros self x0 x1 rest. apply get_result_floats.
Qed.

Lemma get_result_on_floats_witness :
  result_of (construct Multiplication uid0
               (VList (map PFloat [f1e308; f1e308; 0%float])))
  = Return (PFloat (fold_left PrimFloat.mul [f1e308; 0%float] f1e308)).
Proof.
  apply (proj1 (proj2 (proj2
           (get_result_on_floats
              (construct Multiplication uid0
                         (VList (map PFloat [f1e308; f1e308; 0%float])))
              f1e308 f1e308 [0%float] eq_refl)))).
  reflexivity.
Defined.

(** ** Which errors [get_result] can raise *)

Lemma fold_outcome_raises {A : Type} (f : A -> number -> outcome A) (P : exn -> Prop) :
  (forall a v e, f a v = Raise e -> P e) ->
  forall items acc e, fold_outcome f acc items = Raise e -> P e.
Proof.
  intros Hf items; induction items as [|v rest IH]; intros acc e H; cbn in H.
  - discriminate H.
  - destruct (f acc v) as [a|e'] eqn:E; cbn [obind] in H.
    + now apply (IH a).
    + inversion H; subst e'. now apply (Hf acc v).
Qed.

Lemma py_arith_raises fz ff a v e :
  arith fz ff a v = Raise e -> arithmetic_error e.
Proof.
  intros H. destruct (arith_raises _ _ _ _ _ H) as [msg ->]. exact I.
Qed.

Lemma divide_raises a v e :
  Operations.divide a v = Raise e -> e = Models.DivisionByZero \/ arithmetic_error e.
Proof.
  unfold Operations.divide. destruct (eq_zero v).
  - intros H. inversion H. now left.
  - intros H. right. apply py_truediv_raises in H.
    destruct e; try contradiction; exact I.
Qed.

(** On a list of two or more numbers only the loop body can raise. *)
Lemma get_result_long_raises self x0 x1 rest e :
  inputs self = VList (x0 :: x1 :: rest) ->
  result_of self = Raise e ->
  (cls self = Calculation /\ e = NotImplementedError) \/
  (cls self = Division /\ e = Models.DivisionByZero) \/
  (cls self <> Calculation /\ arithmetic_error e).
Proof.
  intros Hin. unfold result_of.
  rewrite (get_result_on_list self x0 x1 rest Hin). cbn [fst].
  destruct (cls self) eqn:Hc; intros H.
  - left. inversion H. now split.
  - right; right. split; [discriminate|].
    revert H. apply fold_outcome_raises. intros a v e'. apply py_arith_raises.
  - right; right. split; [discriminate|].
    revert H. apply fold_outcome_raises. intros a v e'. apply py_arith_raises.
  - right; right. split; [discriminate|].
    revert H. apply fold_outcome_raises. intros a v e'. apply py_arith_raises.
  - apply (fold_outcome_raises Operations.divide
             (fun e => e = Models.DivisionByZero \/ arithmetic_error e) divide_raises) in H.
    destruct H as [H|H]; [right; left; now split | right; right; split; [discriminate | exact H]].
Qed.

(** X8. On an instance whose inputs hold nothing, a number, or a list of
    numbers (integers and floats) of any length, [get_result] raises only
    these: NotImplementedError, and only on the base class; one of the three
    ValueErrors (inputs not a list, fewer than two inputs, zero divisor), the
    last only on a division; or an error of the arithmetic operator itself.
    On such inputs it never raises TypeError or IndexError: the list and
    length checks come before [len], the index and the slice. (A list holding
    something that is not a number is outside this statement.) *)
Theorem get_result_error_taxonomy :
  forall self e,
    result_of self = Raise e ->
    match e with
    | NotImplementedError => cls self = Calculation
    | ValueError _ =>
        cls self <> Calculation /\
        (e = InvalidInputType \/ e = InsufficientOperands \/
         (e = Models.DivisionByZero /\ cls self = Division))
    | OverflowError _ | ZeroDivisionError _ => cls self <> Calculation
    | TypeError _ | IndexError _ => False
    end.
Proof.
  intros self e H.
  destruct (inputs self) as [|n|[|x0 [|x1 rest]]] eqn:Hin.
  5: { destruct (get_result_long_raises self x0 x1 rest e Hin H)
         as [[Hc ->]|[[Hc ->]|[Hc Ha]]].
       - exact Hc.
       - split; [congruence | right; right; now split].
       - destruct e; try contradiction; exact Hc. }
  all: unfold result_of in H; destruct (cls self) eqn:Hc;
    [ unfold get_result in H; rewrite Hc in H; inversion H; reflexivity
    | rewrite get_result_on_short, Hin in H by congruence; cbn [fst] in H;
      inversion H; split; [discriminate | tauto] .. ].
Qed.

Lemma get_result_error_taxonomy_witness :
  cls (construct Division uid0 (VList [PInt 25; PInt 0; PInt 2])) <> Calculation /\
  (Models.DivisionByZero = InvalidInputType \/
   Models.DivisionByZero = InsufficientOperands \/
   (Models.DivisionByZero = Models.DivisionByZero /\
    cls (construct Division uid0 (VList [PInt 25; PInt 0; PInt 2])) = Division)).
Proof.
  apply (get_result_error_taxonomy
           (construct Division uid0 (VList [PInt 25; PInt 0; PInt 2]))
           Models.DivisionByZero).
  reflexivity.
Defined.

(** X9. On an instance of any of the four variants, [get_result] raises the
    invalid-input-type error exactly when the inputs are not a list, and the
    insufficient-operands error exactly when they are a list of fewer than two
    elements; the list check comes first. *)
Theorem shape_errors_exactly :
  forall self,
    cls self <> Calculation ->
    (result_of self = Raise InvalidInputType <-> isinstance_list (inputs self) = false) /\
    (result_of self = Raise InsufficientOperands <->
     exists l, inputs self = VList l /\ (List.length l < 2)%nat).
Proof.
  intros self Hc. unfold result_of.
  destruct (inputs self) as [|n|[|x0 [|x1 rest]]] eqn:Hin.
  5: { split; split.
       - intros H. apply (get_result_long_raises self x0 x1 rest _ Hin) in H.
         destruct H as [[H _]|[[_ H]|[_ H]]]; [contradiction | discriminate H | destruct H].
       - discriminate.
       - intros H. apply (get_result_long_raises self x0 x1 rest _ Hin) in H.
         destruct H as [[H _]|[[_ H]|[_ H]]]; [contradiction | discriminate H | destruct H].
       - intros [l [El Hl]]. inversion El; subst l. cbn in Hl. lia. }
  all: rewrite get_result_on_short, Hin by exact Hc; cbn [fst isinstance_list];
    split; split; try reflexivity; try discriminate.
  - intros [l [El _]]. discriminate El.
  - intros [l [El _]]. discriminate El.
  - intros _. exists []. split; [reflexivity | cbn; lia].
  - intros _. exists [x0]. split; [reflexivity | cbn; lia].
Qed.

Lemma shape_errors_exactly_witness :
  (result_of (construct Subtraction uid0 (VList [PInt 99])) = Raise InvalidInputType <->
   isinstance_list (inputs (construct Subtraction uid0 (VList [PInt 99]))) = false) /\
  (result_of (construct Subtraction uid0 (VList [PInt 99])) = Raise InsufficientOperands <->
   exists l, inputs (construct Subtraction uid0 (VList [PInt 99])) = VList l /\
             (List.length l < 2)%nat).
Proof.
  apply (shape_errors_exactly (construct Subtraction uid0 (VList [PInt 99]))).
  discriminate.
Defined.

(** ** The factory and the type tags of the schema *)

Lemma dict_get_class key k :
  dict_get calculation_classes key = Some k ->
  polymorphic_identity k = key /\ k <> Calculation /\ In key known_tags.
Proof.
  cbn [dict_get calculation_classes known_tags].
  repeat match goal with
         | |- context [String.eqb ?s key] =>
             destruct (String.eqb_spec s key) as [E|_];
             [intros H; inversion H; subst; cbn; repeat split; try discriminate; tauto|]
         end.
  discriminate.
Qed.

Lemma mem_allowed s :
  mem s (map value members) = true <-> In s known_tags.
Proof.
  cbn [mem map value members existsb known_tags In]. rewrite !orb_true_iff.
  rewrite !String.eqb_eq. split.
  - intros [H|[H|[H|[H|H]]]]; try discriminate H; subst; tauto.
  - intros [H|[H|[H|[H|[]]]]]; subst; tauto.
Qed.

(** X10. Whenever the factory returns, the instance it returns is of one of
    the four variants, never of the base class; the tag registered for its
    class as polymorphic identity is the lower-cased tag that was asked for;
    and the owner and the inputs are bound exactly as given. *)
Theorem create_returns_the_requested_variant :
  forall tag uid v c,
    create tag uid v = Return c ->
    cls c <> Calculation /\
    polymorphic_identity (cls c) = lower tag /\
    user_id c = Some uid /\
    inputs c = v.
Proof.
  intros tag uid v c H. unfold create in H.
  destruct (dict_get calculation_classes (lower tag)) as [k|] eqn:Hk; inversion H; subst c.
  destruct (dict_get_class _ _ Hk) as [Hid [Hne _]].
  repeat split; assumption.
Qed.

Lemma create_returns_the_requested_variant_witness :
  cls (construct Division uid0 (VList [PInt 1; PInt 2])) <> Calculation /\
  polymorphic_identity (cls (construct Division uid0 (VList [PInt 1; PInt 2])))
  = lower "DiViSiOn" /\
  user_id (construct Division uid0 (VList [PInt 1; PInt 2])) = Some uid0 /\
  inputs (construct Division uid0 (VList [PInt 1; PInt 2])) = VList [PInt 1; PInt 2].
Proof.
  apply (create_returns_the_requested_variant "DiViSiOn" uid0 (VList [PInt 1; PInt 2])).
  reflexivity.
Defined.

(** X11. The schema and the factory know the same type tags: a tag passes
    the schema's [validate_type] exactly when the factory accepts it, and the
    normalized tag the schema hands on is one the factory accepts, building
    the variant registered under it. *)
Theorem schema_and_factory_agree_on_tags :
  forall tag uid v,
    ((exists s, CalculationBase.validate_type (TypeStr tag) = Return s) <->
     (exists c, create tag uid v = Return c)) /\
    (forall s, CalculationBase.validate_type (TypeStr tag) = Return s ->
               exists c, create s uid v = Return c /\ polymorphic_identity (cls c) = s).
Proof.
  intros tag uid v.
  assert (Hv : forall s, CalculationBase.validate_type (TypeStr tag) = Return s ->
                         s = lower tag /\ In (lower tag) known_tags).
  { intros s H. unfold CalculationBase.validate_type in H.
    destruct (mem (lower tag) (map value members)) eqn:Hm; cbn [negb] in H;
      inversion H. split; [reflexivity | now apply mem_allowed]. }
  split; [split|].
  - intros [s H]. destruct (Hv s H) as [_ Hin].
    destruct (known_tag_has_class _ Hin) as [k [Hk _]].
    exists (construct k uid v). unfold create. now rewrite Hk.
  - intros [c H]. unfold create in H.
    destruct (dict_get calculation_classes (lower tag)) as [k|] eqn:Hk; [|discriminate H].
    destruct (dict_get_class _ _ Hk) as [_ [_ Hin]].
    exists (lower tag). unfold CalculationBase.validate_type.
    apply mem_allowed in Hin. now rewrite Hin.
  - intros s H. destruct (Hv s H) as [-> Hin].
    destruct (known_tag_has_class _ Hin) as [k [Hk Hid]].
    exists (construct k uid v). unfold create. rewrite lower_idempotent, Hk.
    split; [reflexivity | exact Hid].
Qed.

Lemma schema_and_factory_agree_on_tags_witness :
  exists c, create "multiplication" uid0 (VList [PInt 2; PInt 3]) = Return c /\
            polymorphic_identity (cls c) = "multiplication".
Proof.
  apply (proj2 (schema_and_factory_agree_on_tags "MULTIPLICATION" uid0
                  (VList [PInt 2; PInt 3]))).
  reflexivity.
Defined.

(** X12. [validate_type] accepts a string exactly when its lower-casing is
    one of the four tags and then returns that lower-cased tag, which it
    accepts again unchanged and which names a member of the enumeration.
    Every other value, a non-string included, is refused with one and the
    same message, which lists the allowed tags in sorted order and does not
    mention the value given. *)
Theorem validate_type_normalizes :
  (forall tag,
      In (lower tag) known_tags ->
      CalculationBase.validate_type (TypeStr tag) = Return (lower tag) /\
      CalculationBase.validate_type (TypeStr (lower tag)) = Return (lower tag) /\
      exists e, of_value (lower tag) = Some e /\ value e = lower tag) /\
  (forall tag,
      ~ In (lower tag) known_tags ->
      CalculationBase.validate_type (TypeStr tag) = Raise (ValueError type_error_message)) /\
  CalculationBase.validate_type TypeNotStr = Raise (ValueError type_error_message).
Proof.
  split; [|split; [|reflexivity]].
  - intros tag Hin. pose proof (proj2 (mem_allowed _) Hin) as Hm.
    unfold CalculationBase.validate_type. rewrite lower_idempotent, Hm. cbn [negb].
    split; [reflexivity|]. split; [reflexivity|].
    cbn in Hin. destruct Hin as [H|[H|[H|[H|[]]]]]; rewrite <- H.
    + exists ADDITION. split; reflexivity.
    + exists SUBTRACTION. split; reflexivity.
    + exists MULTIPLICATION. split; reflexivity.
    + exists DIVISION. split; reflexivity.
  - intros tag Hn. unfold CalculationBase.validate_type.
    destruct (mem (lower tag) (map value members)) eqn:Hm.
    + exfalso. apply Hn. now apply mem_allowed.
    + reflexivity.
Qed.

Lemma validate_type_normalizes_witness :
  CalculationBase.validate_type (TypeStr "SubTraction") = Return (lower "SubTraction") /\
  CalculationBase.validate_type (TypeStr (lower "SubTraction")) = Return (lower "SubTraction") /\
  exists e, of_value (lower "SubTraction") = Some e /\ value e = lower "SubTraction".
Proof.
  apply (proj1 validate_type_normalizes "SubTraction"). cbn. tauto.
Defined.

(** ** What the creation schema lets through *)

Lemma field_type_accepts tag :
  In (lower tag) known_tags ->
  exists e, CalculationBase.field_type (TypeStr tag) = inr e /\ value e = lower tag.
Proof.
  intros Hin. pose proof (proj2 (mem_allowed _) Hin) as Hm.
  unfold CalculationBase.field_type, CalculationBase.validate_type.
  rewrite Hm. cbn [negb].
  cbn in Hin. destruct Hin as [H|[H|[H|[H|[]]]]]; rewrite <- H.
  - exists ADDITION. split; reflexivity.
  - exists SUBTRACTION. split; reflexivity.
  - exists MULTIPLICATION. split; reflexivity.
  - exists DIVISION. split; reflexivity.
Qed.

Lemma field_type_rejects tag :
  ~ In (lower tag) known_tags ->
  CalculationBase.field_type (TypeStr tag)
  = inl [value_error (ValueError type_error_message)].
Proof.
  intros Hn. unfold CalculationBase.field_type, CalculationBase.validate_type.
  destruct (mem (lower tag) (map value members)) eqn:Hm.
  - exfalso. apply Hn. now apply mem_allowed.
  - reflexivity.
Qed.

Lemma known_tag_dec s : {In s known_tags} + {~ In s known_tags}.
Proof. apply (in_dec String.string_dec). Qed.

(** When and with what the creation schema accepts a request. *)
Lemma model_validate_accepts tag l obj :
  CalculationBase.model_validate (TypeStr tag) (InputsList l) = inr obj <->
  (In (lower tag) known_tags /\
   (2 <= List.length l)%nat /\
   (lower tag = "division" -> existsb float_eq_zero (skipn 1 l) = false) /\
   value (CalculationBase.type obj) = lower tag /\
   CalculationBase.inputs obj = l).
Proof.
  unfold CalculationBase.model_validate.
  destruct (known_tag_dec (lower tag)) as [Hin|Hn].
  2: { rewrite (field_type_rejects tag Hn). split.
       - destruct (CalculationBase.field_inputs (InputsList l)); discriminate.
       - intros [Hin _]. contradiction. }
  destruct (field_type_accepts tag Hin) as [e [He Hv]]. rewrite He.
  unfold CalculationBase.field_inputs, CalculationBase.check_inputs_is_list, min_items.
  destruct (List.length l <? 2)%nat eqn:Hlen.
  { split; [discriminate|]. intros [_ [H2 _]]. apply Nat.ltb_lt in Hlen. lia. }
  apply Nat.ltb_ge in Hlen as Hge.
  unfold CalculationBase.validate_inputs.
  cbn [CalculationBase.inputs CalculationBase.type]. rewrite Hlen.
  unfold CalculationType_eqb. cbn [value]. rewrite Hv.
  destruct (String.eqb_spec (lower tag) "division") as [Ed|Nd].
  - destruct (existsb float_eq_zero (skipn 1 l)) eqn:Hz.
    + split; [discriminate|]. intros [_ [_ [H _]]]. specialize (H Ed). discriminate H.
    + split.
      * intros H. inversion H; subst obj. cbn. repeat split; auto.
      * intros [_ [_ [_ [Ht Hi]]]]. destruct obj as [t i]. cbn in Ht, Hi. subst i.
        f_equal. f_equal. destruct e, t; cbn in Hv, Ht; congruence.
  - split.
    + intros H. inversion H; subst obj. cbn. repeat split; auto. intros E. contradiction.
    + intros [_ [_ [_ [Ht Hi]]]]. destruct obj as [t i]. cbn in Ht, Hi. subst i.
      f_equal. f_equal. destruct e, t; cbn in Hv, Ht; congruence.
Qed.

(** X13. The creation schema accepts a request with a string tag and a list
    of inputs exactly when the lower-cased tag is one of the four, the list
    has at least two elements, and, for a division, no element after the
    first is zero. What it then yields carries the lower-cased tag and the
    inputs unchanged. For the other three variants zeros are accepted in any
    position. *)
Theorem creation_schema_acceptance :
  forall tag l obj,
    CalculationBase.model_validate (TypeStr tag) (InputsList l) = inr obj <->
    (In (lower tag) known_tags /\
     (2 <= List.length l)%nat /\
     (lower tag = "division" -> existsb float_eq_zero (skipn 1 l) = false) /\
     value (CalculationBase.type obj) = lower tag /\
     CalculationBase.inputs obj = l).
Proof.
  intros tag l obj. apply model_validate_accepts.
Qed.

Lemma creation_schema_acceptance_witness :
  CalculationBase.model_validate (TypeStr "Addition") (InputsList [0%float; 0%float])
  = inr (CalculationBase.mk ADDITION [0%float; 0%float]).
Proof.
  apply (proj2 (creation_schema_acceptance "Addition" [0%float; 0%float]
                  (CalculationBase.mk ADDITION [0%float; 0%float]))).
  cbn. repeat split; try tauto; try lia. discriminate.
Defined.

(** ** From an accepted request to a computed result *)

(** X14. A request the creation schema accepts always computes: handing the
    accepted tag and inputs to the factory returns an instance, and
    [get_result] on that instance returns a float; none of the entity's own
    errors (unsupported type, inputs not a list, too few inputs, zero
    divisor) and no arithmetic error can occur. *)
Theorem accepted_request_computes :
  forall tag l obj uid,
    CalculationBase.model_validate (TypeStr tag) (InputsList l) = inr obj ->
    exists c r,
      create (value (CalculationBase.type obj)) uid
             (VList (map PFloat (CalculationBase.inputs obj))) = Return c /\
      result_of c = Return (PFloat r).
Proof.
  intros tag l obj uid H.
  apply model_validate_accepts in H. destruct H as [Hin [Hlen [Hdiv [Ht Hi]]]].
  rewrite Ht, Hi. destruct l as [|x0 [|x1 rest]]; cbn in Hlen; try lia.
  destruct (known_tag_has_class _ Hin) as [k [Hk Hid]].
  exists (construct k uid (VList (map PFloat (x0 :: x1 :: rest)))).
  unfold create. rewrite lower_idempotent, Hk.
  pose proof (get_result_floats
                (construct k uid (VList (map PFloat (x0 :: x1 :: rest))))
                x0 x1 rest eq_refl) as [Ha [Hs [Hm Hd]]].
  destruct k.
  - cbn in Hid. cbn in Hin.
    destruct Hin as [E|[E|[E|[E|[]]]]]; rewrite <- Hid in E; discriminate E.
  - eexists. split; [reflexivity | now apply Ha].
  - eexists. split; [reflexivity | now apply Hs].
  - eexists. split; [reflexivity | now apply Hm].
  - specialize (Hd eq_refl). cbn [skipn] in Hdiv.
    rewrite (Hdiv (eq_sym Hid)) in Hd.
    eexists. split; [reflexivity | exact Hd].
Qed.

Lemma accepted_request_computes_witness :
  exists c r,
    create (value (CalculationBase.type (CalculationBase.mk DIVISION [0%float; 4%float])))
           uid0
           (VList (map PFloat
                       (CalculationBase.inputs
                          (CalculationBase.mk DIVISION [0%float; 4%float]))))
    = Return c /\
    result_of c = Return (PFloat r).
Proof.
  apply (accepted_request_computes "Division" [0%float; 4%float]
           (CalculationBase.mk DIVISION [0%float; 4%float]) uid0).
  reflexivity.
Defined.

(** X15. The update schema does not protect a division: every list with a
    zero after its first element, which the creation schema refuses for a
    division, passes the update schema; recomputing a division from such a
    list does not return a value but raises the entity's division-by-zero
    error. *)
Theorem update_zero_divisor_caught_at_computation :
  forall l uid,
    existsb float_eq_zero (skipn 1 l) = true ->
    CalculationUpdate.model_validate (Some (InputsList l))
    = inr (CalculationUpdate.mk (Some l)) /\
    CalculationBase.model_validate (TypeStr "division") (InputsList l)
    = inl [value_error Schemas.DivisionByZero] /\
    result_of (construct Division uid (VList (map PFloat l))) = Raise Models.DivisionByZero.
Proof.
  intros l uid Hz. pose proof (zero_after_first_has_two l Hz) as Hlen.
  split; [|split].
  - unfold CalculationUpdate.model_validate, CalculationUpdate.field_inputs, min_items,
      CalculationUpdate.validate_inputs.
    rewrite Hlen. cbn [CalculationUpdate.inputs]. now rewrite Hlen.
  - unfold CalculationBase.model_validate, CalculationBase.field_inputs,
      CalculationBase.check_inputs_is_list, min_items.
    rewrite Hlen. cbn -[skipn existsb Nat.ltb].
    unfold CalculationBase.validate_inputs.
    cbn [CalculationBase.inputs CalculationBase.type]. now rewrite Hlen, Hz.
  - destruct l as [|x0 [|x1 rest]]; try discriminate Hz. cbn [skipn] in Hz.
    pose proof (get_result_floats
                  (construct Division uid (VList (map PFloat (x0 :: x1 :: rest))))
                  x0 x1 rest eq_refl) as [_ [_ [_ Hd]]].
    specialize (Hd eq_refl). now rewrite Hz in Hd.
Qed.

Lemma update_zero_divisor_caught_at_computation_witness :
  CalculationUpdate.model_validate (Some (InputsList [10%float; 0%float]))
  = inr (CalculationUpdate.mk (Some [10%float; 0%float])) /\
  CalculationBase.model_validate (TypeStr "division") (InputsList [10%float; 0%float])
  = inl [value_error Schemas.DivisionByZero] /\
  result_of (construct Division uid0 (VList (map PFloat [10%float; 0%float])))
  = Raise Models.DivisionByZero.
Proof.
  apply (update_zero_divisor_caught_at_computation [10%float; 0%float] uid0).
  reflexivity.
Defined.

(** ** Division is true division *)

Lemma py_truediv_returns_float a b r :
  py_truediv a b = Return r -> is_float r = true.
Proof.
  destruct a as [x|f], b as [y|g]; cbn [py_truediv].
  - destruct (int_truediv x y); cbn [obind]; intros H; inversion H; reflexivity.
  - destruct (int_to_float x); cbn [obind]; [|discriminate].
    destruct (float_truediv _ g); cbn [obind]; intros H; inversion H; reflexivity.
  - destruct (int_to_float y); cbn [obind]; [|discriminate].
    destruct (float_truediv f _); cbn [obind]; intros H; inversion H; reflexivity.
  - destruct (float_truediv f g); cbn [obind]; intros H; inversion H; reflexivity.
Qed.

Lemma fold_divide_returns_float rest : forall acc r,
  fold_outcome Operations.divide acc rest = Return r ->
  (rest = [] /\ r = acc) \/ is_float r = true.
Proof.
  induction rest as [|v rest IH]; intros acc r H; cbn in H.
  - left. inversion H. now split.
  - right. destruct (Operations.divide acc v) as [a|e] eqn:Hd; cbn [obind] in H;
      [|discriminate H].
    destruct (IH a r H) as [[_ ->]|Hf]; [|exact Hf].
    unfold Operations.divide in Hd. destruct (eq_zero v); [discriminate Hd|].
    now apply (py_truediv_returns_float acc v).
Qed.

(** X16. Whenever a division on a list of at least two numbers returns, the
    value is a float, also when every input is an integer and the quotient is
    whole ([60, 3, 4] gives 5.0, not 5). *)
Theorem division_returns_a_float :
  forall self l r,
    cls self = Division -> inputs self = VList l -> (2 <= List.length l)%nat ->
    result_of self = Return r ->
    is_float r = true.
Proof.
  intros self [|x0 [|x1 rest]] r Hc Hin Hlen; cbn in Hlen; try lia.
  unfold result_of. rewrite (get_result_on_list self x0 x1 rest Hin), Hc. cbn [fst].
  intros H. destruct (fold_divide_returns_float _ _ _ H) as [[E _]|Hf];
    [discriminate E | exact Hf].
Qed.

Lemma division_returns_a_float_witness :
  is_float (PFloat 5) = true.
Proof.
  apply (division_returns_a_float
           (construct Division uid0 (VList [PInt 60; PInt 3; PInt 4]))
           [PInt 60; PInt 3; PInt 4] (PFloat 5)).
  - reflexivity.
  - reflexivity.
  - simpl. lia.
  - vm_compute. reflexivity.
Defined.
